(** * JASM: secret synchronisation from pod annotations

    A shallow embedding of the Go packages [annotation], [provider],
    [events] and [controller] of github.com/codnod/jasm, and the
    properties of the reconciliation engine proved over it.

    Go maps are stdpp [gmap]s (a nil map and an empty map are both [∅],
    as [len] and [range] do not tell them apart), Go strings are
    [string]s, and a Go function returning [(T, error)] returns
    [error + T] with the error on the left.  Log output is left out:
    the structured-log sink takes no part in any property below. *)

From stdpp Require Import gmap strings list fin_maps.
From Stdlib Require Import ZArith PrimFloat.

Set Warnings "-register-all".

Open Scope string_scope.

(** ** Go values shared by the packages *)

(** The line feed of Go's ["\n"]. *)
Definition nl : string := String (Ascii.ascii_of_nat 10) EmptyString.

(** [metav1.StatusReason], the reasons this program can tell apart. *)
Inductive StatusReason :=
| StatusReasonUnknown
| StatusReasonNotFound
| StatusReasonAlreadyExists
| StatusReasonConflict
| StatusReasonForbidden
| StatusReasonInternalError.

#[global] Instance StatusReason_eq_dec : EqDecision StatusReason.
Proof. solve_decision. Defined.

(** Go's [error] interface, by the concrete errors that reach this
    program: [fmt.Errorf] without and with [%w], the API server's
    [*apierrors.StatusError], and the AWS SDK's operation errors with
    their exception code. *)
Inductive error :=
| errorString (text : string)
| wrapError (text : string) (err : error)
| StatusError (reason : StatusReason) (code : Z) (text : string)
| OperationError (code : string) (text : string).

(** [err.Error()] *)
Definition Error (e : error) : string :=
  match e with
  | errorString text => text
  | wrapError text _ => text
  | StatusError _ _ text => text
  | OperationError _ text => text
  end.

(** [fmt.Errorf(prefix + "%w", err)] *)
Definition Errorf_w (prefix : string) (err : error) : error :=
  wrapError (prefix +:+ Error err) err.

(** [errors.Unwrap], iterated down to the innermost error. *)
Fixpoint Cause (e : error) : error :=
  match e with
  | wrapError _ inner => Cause inner
  | _ => e
  end.

(** [apierrors.IsNotFound]: the reason is NotFound, or the reason is
    not a known one and the HTTP code is 404. *)
Definition IsNotFound (e : option error) : bool :=
  match e with
  | None => false
  | Some e =>
    match Cause e with
    | StatusError reason code _ =>
      bool_decide (reason = StatusReasonNotFound)
      || (bool_decide (reason = StatusReasonUnknown) && bool_decide (code = 404%Z))
    | _ => false
    end
  end.

(** ** gopkg.in/yaml.v3 *)

Module yaml.

(** The document tree [yaml.v3] builds from the text.  A mapping has
    unique keys: the library rejects a document that repeats one. *)
Inductive Node :=
| Null
| Scalar (value : string)
| Sequence (items : list Node)
| Mapping (entries : gmap string Node).

(** The error [Unmarshal] returns when a node does not fit the Go
    type it is decoded into. *)
Definition TypeError : error := errorString "yaml: unmarshal errors".

(** Decoding into a [string]: a null leaves the zero value. *)
Definition decode_string (n : Node) : error + string :=
  match n with
  | Null => inr EmptyString
  | Scalar value => inr value
  | _ => inl TypeError
  end.

(** Decoding into a [map[string]string]. *)
Definition decode_string_map (n : Node) : error + gmap string string :=
  match n with
  | Null => inr ∅
  | Mapping entries =>
    map_fold (fun k v acc =>
                match acc, decode_string v with
                | inr m, inr s => inr (<[k := s]> m)
                | inl e, _ | _, inl e => inl e
                end) (inr ∅) entries
  | _ => inl TypeError
  end.

(** A struct field whose key is absent keeps its zero value. *)
Definition field {A} (decode : Node → error + A) (zero : A)
    (entries : gmap string Node) (tag : string) : error + A :=
  match entries !! tag with
  | None => inr zero
  | Some n => decode n
  end.

End yaml.

(** ** Package annotation (internal/annotation/parser.go) *)

Module annotation.

Definition AnnotationKey : string := "jasm.codnod.io/secret-sync".

Record PodAnnotation := {
  pa_Provider : string;      (* yaml:"provider" *)
  pa_Path : string;          (* yaml:"path" *)
  pa_SecretName : string;    (* yaml:"secretName" *)
  pa_Keys : gmap string string  (* yaml:"keys" *)
}.

Record SecretSyncRequest := {
  Provider : string;
  SecretPath : string;
  SecretName : string;
  Namespace : string;
  PodName : string;
  PodUID : string;
  KeyMapping : gmap string string
}.

(** [yaml.v3] decoding a document into a [PodAnnotation], directed by
    the field tags of the struct: the four tagged keys are read from
    a mapping, every other key of the mapping is ignored ([Unmarshal]
    does not set [KnownFields]), the empty document leaves the zero
    struct, and any other document is a type error. *)
Definition decode_PodAnnotation (doc : yaml.Node) : error + PodAnnotation :=
  match doc with
  | yaml.Null => inr {| pa_Provider := EmptyString; pa_Path := EmptyString;
                        pa_SecretName := EmptyString; pa_Keys := ∅ |}
  | yaml.Mapping entries =>
    match yaml.field yaml.decode_string EmptyString entries "provider",
          yaml.field yaml.decode_string EmptyString entries "path",
          yaml.field yaml.decode_string EmptyString entries "secretName",
          yaml.field yaml.decode_string_map ∅ entries "keys" with
    | inr p, inr path, inr name, inr keys =>
      inr {| pa_Provider := p; pa_Path := path;
             pa_SecretName := name; pa_Keys := keys |}
    | _, _, _, _ => inl yaml.TypeError
    end
  | _ => inl yaml.TypeError
  end.

Section Parser.

(** The syntax half of [yaml.Unmarshal]: from the text to the
    document tree, or a syntax error. *)
Variable yaml_parse : string → error + yaml.Node.

(** [yaml.Unmarshal([]byte(text), &podAnnotation)] *)
Definition yaml_Unmarshal (text : string) : error + PodAnnotation :=
  match yaml_parse text with
  | inl err => inl err
  | inr doc => decode_PodAnnotation doc
  end.

Definition ParseAnnotation (annotationValue namespace podName podUID : string)
    : error + SecretSyncRequest :=
  if bool_decide (annotationValue = EmptyString) then
    inl (errorString "annotation value is empty")
  else
    match yaml_Unmarshal annotationValue with
    | inl err => inl (Errorf_w "failed to parse annotation YAML: " err)
    | inr podAnnotation =>
      if bool_decide (pa_Provider podAnnotation = EmptyString) then
        inl (errorString "provider field is required")
      else if bool_decide (pa_Path podAnnotation = EmptyString) then
        inl (errorString "path field is required")
      else if bool_decide (pa_SecretName podAnnotation = EmptyString) then
        inl (errorString "secretName field is required")
      else
        inr {| Provider := pa_Provider podAnnotation;
               SecretPath := pa_Path podAnnotation;
               SecretName := pa_SecretName podAnnotation;
               Namespace := namespace;
               PodName := podName;
               PodUID := podUID;
               KeyMapping := pa_Keys podAnnotation |}
    end.

End Parser.

End annotation.


(** ** Package provider (provider.go, aws.go) *)

Module provider.

(** The [SecretProvider] interface: an implementation is the pair of
    its methods.  [FetchSecret] performs a live lookup; its context
    argument carries cancellation only. *)
Record SecretProvider := {
  FetchSecret : string → error + gmap string string;
  Name : string
}.

Record ProviderRegistry := {
  providers : gmap string SecretProvider
}.

Definition NewProviderRegistry : ProviderRegistry :=
  {| providers := ∅ |}.

Definition Register (r : ProviderRegistry) (provider : SecretProvider)
    : ProviderRegistry :=
  {| providers := <[Name provider := provider]> (providers r) |}.

(** [Get] returns nil, here [None], for a name that is not registered. *)
Definition Get (r : ProviderRegistry) (name : string) : option SecretProvider :=
  providers r !! name.

Definition List (r : ProviderRegistry) : list string :=
  fst <$> map_to_list (providers r).

(** What [json.Unmarshal] stores in an [interface{}]. *)
Inductive json_value :=
| json_nil
| json_string (v : string)
| json_float64 (v : float)
| json_bool (v : bool)
| json_slice (v : list json_value)
| json_map (v : gmap string json_value).

(** [fmt.Sprintf("%v", v)] for a [bool]. *)
Definition Sprintf_v_bool (v : bool) : string :=
  if v then "true" else "false".

Section AWS.

(** [encoding/json] and [fmt], taken as given: decoding a text into a
    [map[string]interface{}], encoding a decoded value (which cannot
    fail on a value that came out of [Unmarshal]), and [%v] of a
    [float64]. *)
Variable json_Unmarshal : string → error + gmap string json_value.
Variable json_Marshal : json_value → string.
Variable Sprintf_v_float64 : float → string.

(** The type switch of [FetchSecret], one case per arm. *)
Definition convertValue (value : json_value) : string :=
  match value with
  | json_string v => v
  | json_float64 v => Sprintf_v_float64 v
  | json_bool v => Sprintf_v_bool v
  | json_nil => EmptyString
  | v => json_Marshal v
  end.

(** The loop of [FetchSecret] over [rawData], filling [secretData]. *)
Definition convertValues (rawData : gmap string json_value) : gmap string string :=
  map_fold (fun key value secretData => <[key := convertValue value]> secretData)
           ∅ rawData.

(** The one call [FetchSecret] makes on the Secrets Manager client:
    [GetSecretValue] answers with an error or with an output whose
    [SecretString] may be nil. *)
Record AWSSecretsManagerProvider := {
  client : string → error + option string
}.

Definition AWS_Name (p : AWSSecretsManagerProvider) : string :=
  "aws-secretsmanager".

Definition AWS_FetchSecret (p : AWSSecretsManagerProvider) (path : string)
    : error + gmap string string :=
  match client p path with
  | inl err =>
    inl (Errorf_w "failed to fetch secret from AWS Secrets Manager: " err)
  | inr None =>
    inl (errorString ("secret " +:+ path +:+ " does not contain a string value"))
  | inr (Some SecretString) =>
    match json_Unmarshal SecretString with
    | inl err => inl (Errorf_w "failed to parse secret JSON: " err)
    | inr rawData => inr (convertValues rawData)
    end
  end.

(** [*AWSSecretsManagerProvider] as a [SecretProvider]. *)
Definition AWS_SecretProvider (p : AWSSecretsManagerProvider) : SecretProvider :=
  {| FetchSecret := AWS_FetchSecret p; Name := AWS_Name p |}.

End AWS.

Section Default.

Variable json_Unmarshal : string → error + gmap string json_value.
Variable json_Marshal : json_value → string.
Variable Sprintf_v_float64 : float → string.

(** The AWS SDK at start-up: what [config.LoadDefaultConfig] answers,
    and the client [secretsmanager.NewFromConfig] makes of a
    configuration. *)
Variable Config : Type.
Variable LoadDefaultConfig : error + Config.
Variable NewFromConfig : Config → string → error + option string.

Definition NewAWSSecretsManagerProvider : error + AWSSecretsManagerProvider :=
  match LoadDefaultConfig with
  | inl err => inl (Errorf_w "failed to load AWS config: " err)
  | inr cfg => inr {| client := NewFromConfig cfg |}
  end.

Definition DefaultProviderRegistry : error + ProviderRegistry :=
  let registry := NewProviderRegistry in
  match NewAWSSecretsManagerProvider with
  | inl err => inl (Errorf_w "failed to create AWS provider: " err)
  | inr awsProvider =>
    inr (Register registry
           (AWS_SecretProvider json_Unmarshal json_Marshal Sprintf_v_float64
              awsProvider))
  end.

End Default.

End provider.


(** ** Kubernetes objects *)

(** [types.NamespacedName]: namespace first, then name. *)
Abbreviation NamespacedName := (string * string)%type.

Record Pod := {
  pod_Namespace : string;
  pod_Name : string;
  pod_UID : string;
  pod_Annotations : gmap string string
}.

(** [corev1.Secret].  [Data] holds byte strings and [StringData] text;
    both are [string]s here, a Go string being its bytes. *)
Record Secret := {
  secret_Namespace : string;
  secret_Name : string;
  Labels : gmap string string;
  Annotations : gmap string string;
  Data : gmap string string;
  StringData : gmap string string;
  secret_Type : string
}.

(** [client.ObjectKeyFromObject] *)
Definition ObjectKeyFromPod (pod : Pod) : NamespacedName :=
  (pod_Namespace pod, pod_Name pod).

Definition ObjectKeyFromSecret (secret : Secret) : NamespacedName :=
  (secret_Namespace secret, secret_Name secret).

(** ** Package events (internal/events/recorder.go) *)

Module events.

Definition EventReasonSecretSyncSuccess : string := "SecretSyncSuccess".
Definition EventReasonSecretSyncFailed : string := "SecretSyncFailed".
Definition EventReasonAnnotationInvalid : string := "AnnotationInvalid".
Definition EventReasonProviderUnsupported : string := "ProviderUnsupported".
Definition EventReasonSecretFetchFailed : string := "SecretFetchFailed".

Definition EventTypeNormal : string := "Normal".
Definition EventTypeWarning : string := "Warning".

(** One call of [recorder.Eventf]. *)
Record Event := {
  object : NamespacedName;
  eventtype : string;
  reason : string;
  message : string
}.

Definition EmitSecretSyncSuccess (pod : Pod) (secretName provider path : string)
    : Event :=
  {| object := ObjectKeyFromPod pod;
     eventtype := EventTypeNormal;
     reason := EventReasonSecretSyncSuccess;
     message := "Successfully synchronized secret '" +:+ secretName +:+
                "' from " +:+ provider +:+ " (path: " +:+ path +:+ ")" |}.

Definition EmitAnnotationInvalid (pod : Pod) (err : error) : Event :=
  {| object := ObjectKeyFromPod pod;
     eventtype := EventTypeWarning;
     reason := EventReasonAnnotationInvalid;
     message := "Invalid secret sync annotation: " +:+ Error err |}.

Definition EmitSecretFetchFailed (pod : Pod) (provider path : string) (err : error)
    : Event :=
  {| object := ObjectKeyFromPod pod;
     eventtype := EventTypeWarning;
     reason := EventReasonSecretFetchFailed;
     message := "Failed to fetch secret from " +:+ provider +:+
                " (path: " +:+ path +:+ "): " +:+ Error err |}.

Definition EmitProviderNotFound (pod : Pod) (provider : string) : Event :=
  {| object := ObjectKeyFromPod pod;
     eventtype := EventTypeWarning;
     reason := EventReasonProviderUnsupported;
     message := "Provider '" +:+ provider +:+ "' not found in registry" |}.

End events.


(** ** Package controller (internal/controller/podsecret_controller.go) *)

Module controller.

Import annotation provider events.

Definition AnnotationKey : string := "jasm.codnod.io/secret-sync".
Definition ManagedByLabel : string := "app.kubernetes.io/managed-by".
Definition ManagedByValue : string := "jasm".
Definition SourcePathAnnotation : string := "jasm.codnod.io/source-path".
Definition SyncedAtAnnotation : string := "jasm.codnod.io/synced-at".
Definition SecretTypeOpaque : string := "Opaque".

(** [ctrl.Result]; [RequeueAfter] is never set by this program. *)
Record Result := { Requeue : bool }.

(** The methods of [client.Client] the reconciler calls, over a store
    in state [W]: a read answers from the state, a write answers with
    the next state, and each may fail. *)
Record Client (W : Type) := {
  GetPod : NamespacedName → W → error + Pod;
  GetSecret : NamespacedName → W → error + Secret;
  ListPods : string → W → error + list Pod;
  Create : Secret → W → error + W;
  Update : Secret → W → error + W
}.
Arguments GetPod {W}.
Arguments GetSecret {W}.
Arguments ListPods {W}.
Arguments Create {W}.
Arguments Update {W}.

(** The calls a reconciliation makes on its collaborators, in order. *)
Inductive Call :=
| CallGetPod (key : NamespacedName)
| CallFetchSecret (provider path : string)
| CallGetSecret (key : NamespacedName)
| CallCreate (secret : Secret)
| CallUpdate (secret : Secret)
| CallEventf (event : Event).

(** What [Reconcile] hands back to the runtime, with the store as the
    run left it and the calls the run made. *)
Record Outcome (W : Type) := {
  result : Result;
  err : option error;
  world : W;
  calls : list Call
}.
Arguments result {W}.
Arguments err {W}.
Arguments world {W}.
Arguments calls {W}.

(** Calls made before the rest of the run. *)
Definition after {W} (done : list Call) (o : Outcome W) : Outcome W :=
  {| result := result o; err := err o; world := world o;
     calls := done ++ calls o |}.

(** [client.IgnoreNotFound] *)
Definition IgnoreNotFound (e : error) : option error :=
  if IsNotFound (Some e) then None else Some e.

(** The payload [Reconcile] builds in [secretStringData]: through the
    key mapping when it has entries, else a copy of every fetched key. *)
Definition secretStringData (KeyMapping secretData : gmap string string)
    : gmap string string :=
  if bool_decide (0 < size KeyMapping) then
    map_fold (fun kubernetesKey awsSecretKey acc =>
                match secretData !! awsSecretKey with
                | Some value => <[kubernetesKey := value]> acc
                | None => acc
                end) ∅ KeyMapping
  else
    map_fold (fun k v acc => <[k := v]> acc) ∅ secretData.

Section Reconciler.

Variable yaml_parse : string → error + yaml.Node.
Context {W : Type}.
(** The fields of [PodSecretReconciler], and the clock. *)
Variable c : Client W.
Variable ProviderRegistry : provider.ProviderRegistry.
(** [time.Now().UTC().Format(time.RFC3339)] *)
Variable now : string.

(** [Reconcile] from the read of the managed secret to its end: the
    secret is read into [secret], the payload is built, the labels,
    annotations, [StringData] and type are set on that same object, and
    the object is written back. *)
Definition upsert (pod : Pod) (syncRequest : SecretSyncRequest)
    (secretData : gmap string string) (w : W) : Outcome W :=
  let secret :=
    {| secret_Namespace := Namespace syncRequest;
       secret_Name := SecretName syncRequest;
       Labels := ∅; Annotations := ∅; Data := ∅; StringData := ∅;
       secret_Type := EmptyString |} in
  let key := ObjectKeyFromSecret secret in
  let '(secret, err) :=
    match GetSecret c key w with
    | inl e => (secret, Some e)
    | inr stored => (stored, None)
    end in
  let secretExists := negb (IsNotFound err) in
  if bool_decide (err ≠ None) && negb (IsNotFound err) then
    {| result := {| Requeue := false |}; err := err; world := w;
       calls := [CallGetSecret key] |}
  else
    let stringData := secretStringData (KeyMapping syncRequest) secretData in
    let secret :=
      {| secret_Namespace := secret_Namespace secret;
         secret_Name := secret_Name secret;
         Labels := <[ManagedByLabel := ManagedByValue]> (Labels secret);
         Annotations := <[SyncedAtAnnotation := now]>
                          (<[SourcePathAnnotation := SecretPath syncRequest]>
                             (Annotations secret));
         Data := Data secret;
         StringData := stringData;
         secret_Type := SecretTypeOpaque |} in
    let success :=
      CallEventf (EmitSecretSyncSuccess pod (SecretName syncRequest)
                    (Provider syncRequest) (SecretPath syncRequest)) in
    if secretExists then
      match Update c secret w with
      | inl e =>
        {| result := {| Requeue := false |}; err := Some e; world := w;
           calls := [CallGetSecret key; CallUpdate secret] |}
      | inr w' =>
        {| result := {| Requeue := false |}; err := None; world := w';
           calls := [CallGetSecret key; CallUpdate secret; success] |}
      end
    else
      match Create c secret w with
      | inl e =>
        {| result := {| Requeue := false |}; err := Some e; world := w;
           calls := [CallGetSecret key; CallCreate secret] |}
      | inr w' =>
        {| result := {| Requeue := false |}; err := None; world := w';
           calls := [CallGetSecret key; CallCreate secret; success] |}
      end.

(** [Reconcile] once the pod is loaded. *)
Definition reconcilePod (pod : Pod) (w : W) : Outcome W :=
  match pod_Annotations pod !! AnnotationKey with
  | None =>
    {| result := {| Requeue := false |}; err := None; world := w; calls := [] |}
  | Some annotationValue =>
    match ParseAnnotation yaml_parse annotationValue
            (pod_Namespace pod) (pod_Name pod) (pod_UID pod) with
    | inl err =>
      {| result := {| Requeue := false |}; err := None; world := w;
         calls := [CallEventf (EmitAnnotationInvalid pod err)] |}
    | inr syncRequest =>
      if bool_decide (Namespace syncRequest ≠ pod_Namespace pod) then
        let err :=
          errorString ("annotation namespace mismatch: annotation specifies " +:+
                       Namespace syncRequest +:+ " but pod is in " +:+
                       pod_Namespace pod) in
        {| result := {| Requeue := false |}; err := None; world := w;
           calls := [CallEventf (EmitAnnotationInvalid pod err)] |}
      else
        match Get ProviderRegistry (Provider syncRequest) with
        | None =>
          {| result := {| Requeue := false |}; err := None; world := w;
             calls := [CallEventf (EmitProviderNotFound pod (Provider syncRequest))] |}
        | Some secretProvider =>
          let fetch :=
            CallFetchSecret (Provider syncRequest) (SecretPath syncRequest) in
          match FetchSecret secretProvider (SecretPath syncRequest) with
          | inl err =>
            {| result := {| Requeue := true |}; err := Some err; world := w;
               calls := [fetch;
                         CallEventf (EmitSecretFetchFailed pod (Provider syncRequest)
                                       (SecretPath syncRequest) err)] |}
          | inr secretData =>
            after [fetch] (upsert pod syncRequest secretData w)
          end
        end
    end
  end.

Definition Reconcile (req : NamespacedName) (w : W) : Outcome W :=
  match GetPod c req w with
  | inl err =>
    {| result := {| Requeue := false |}; err := IgnoreNotFound err; world := w;
       calls := [CallGetPod req] |}
  | inr pod => after [CallGetPod req] (reconcilePod pod w)
  end.

(** The loop body of [findPodsForSecret]. *)
Definition appendIfReferenced (secret : Secret) (requests : list NamespacedName)
    (pod : Pod) : list NamespacedName :=
  match pod_Annotations pod !! AnnotationKey with
  | None => requests
  | Some annotationValue =>
    match ParseAnnotation yaml_parse annotationValue
            (pod_Namespace pod) (pod_Name pod) (pod_UID pod) with
    | inl _ => requests
    | inr syncRequest =>
      if bool_decide (SecretName syncRequest = secret_Name secret) then
        requests ++ [ObjectKeyFromPod pod]
      else requests
    end
  end.

(** A label that is not set reads as the empty string. *)
Definition findPodsForSecret (secret : Secret) (w : W) : list NamespacedName :=
  if bool_decide (default EmptyString (Labels secret !! ManagedByLabel)
                  ≠ ManagedByValue) then []
  else
    match ListPods c (secret_Namespace secret) w with
    | inl _ => []
    | inr Items => foldl (appendIfReferenced secret) [] Items
    end.

End Reconciler.

(** *** The resource store

    The API server as the reconciler meets it through the client: pods
    and secrets by namespace and name.  A secret is stored with the
    entries of its [StringData] written over those of its [Data], and
    [StringData] itself is never stored nor returned (the contract of
    the [stringData] field of [corev1.Secret]). *)
Record Cluster := {
  pods : list Pod;
  secrets : gmap NamespacedName Secret
}.

Definition NewNotFound (key : NamespacedName) : error :=
  StatusError StatusReasonNotFound 404 (key.2 +:+ " not found").

Definition NewAlreadyExists (key : NamespacedName) : error :=
  StatusError StatusReasonAlreadyExists 409 (key.2 +:+ " already exists").

Definition stored (secret : Secret) : Secret :=
  {| secret_Namespace := secret_Namespace secret;
     secret_Name := secret_Name secret;
     Labels := Labels secret;
     Annotations := Annotations secret;
     Data := StringData secret ∪ Data secret;
     StringData := ∅;
     secret_Type := secret_Type secret |}.

Definition apiserver : Client Cluster :=
  {| GetPod key w :=
       match find (fun pod => bool_decide (ObjectKeyFromPod pod = key)) (pods w) with
       | Some pod => inr pod
       | None => inl (NewNotFound key)
       end;
     GetSecret key w :=
       match secrets w !! key with
       | Some secret => inr secret
       | None => inl (NewNotFound key)
       end;
     ListPods namespace w :=
       inr (List.filter (fun pod => bool_decide (pod_Namespace pod = namespace)) (pods w));
     Create secret w :=
       match secrets w !! ObjectKeyFromSecret secret with
       | Some _ => inl (NewAlreadyExists (ObjectKeyFromSecret secret))
       | None =>
         inr {| pods := pods w;
                secrets := <[ObjectKeyFromSecret secret := stored secret]> (secrets w) |}
       end;
     Update secret w :=
       match secrets w !! ObjectKeyFromSecret secret with
       | None => inl (NewNotFound (ObjectKeyFromSecret secret))
       | Some _ =>
         inr {| pods := pods w;
                secrets := <[ObjectKeyFromSecret secret := stored secret]> (secrets w) |}
       end |}.

End controller.


(** ** Vocabulary of the specification *)

(** The parser's three kinds of failure, by the error each one is. *)
Definition EmptyPayload : error := errorString "annotation value is empty".

Definition MalformedPayload (err : error) : error :=
  Errorf_w "failed to parse annotation YAML: " err.

Definition MissingField (field : string) : error :=
  errorString (field +:+ " field is required").

(** The namespace a payload states for itself, when it has such a key. *)
Definition payload_namespace (doc : yaml.Node) : option string :=
  match doc with
  | yaml.Mapping entries =>
    match entries !! "namespace" with
    | Some (yaml.Scalar ns) => Some ns
    | _ => None
    end
  | _ => None
  end.

(** C6 as the spec words it: a payload whose own namespace differs from
    the unit's is refused. *)
Definition namespace_disagreement_is_refused : Prop :=
  ∀ (yaml_parse : string → error + yaml.Node) text namespace podName podUID doc ns,
    yaml_parse text = inr doc →
    payload_namespace doc = Some ns →
    ns ≠ namespace →
    ∃ err, annotation.ParseAnnotation yaml_parse text namespace podName podUID
           = inl err.

(** The characters of a resource name of the target store (an RFC 1123
    DNS name): lower-case letters, digits, [-] and [.]. *)
Definition resource_name_char (a : Ascii.ascii) : bool :=
  let n := Ascii.nat_of_ascii a in
  ((97 <=? n)%nat && (n <=? 122)%nat) || ((48 <=? n)%nat && (n <=? 57)%nat)
  || (n =? 45)%nat || (n =? 46)%nat.

Definition resource_name_charset (name : string) : bool :=
  forallb resource_name_char (String.list_ascii_of_string name).

(** The spec's split of fetch failures, read off the cause's code:
    not found, access denied and a malformed response are permanent. *)
Definition permanent_codes : list string :=
  ["ResourceNotFoundException"; "AccessDeniedException"; "MalformedResponse"].

Definition IsPermanent (e : error) : bool :=
  match Cause e with
  | OperationError code _ => bool_decide (code ∈ permanent_codes)
  | _ => false
  end.

(** The ways a reconciliation ends before the upsert step: the unit is
    not loaded, it has no annotation, the annotation does not parse,
    its namespace differs from the unit's, its provider is not
    registered, or the fetch fails. *)
Inductive StopsBeforeUpsert {W} (yaml_parse : string → error + yaml.Node)
    (c : controller.Client W) (registry : provider.ProviderRegistry)
    (req : NamespacedName) (w : W) : Prop :=
| unit_not_loaded err :
    controller.GetPod c req w = inl err →
    StopsBeforeUpsert yaml_parse c registry req w
| annotation_absent pod :
    controller.GetPod c req w = inr pod →
    pod_Annotations pod !! controller.AnnotationKey = None →
    StopsBeforeUpsert yaml_parse c registry req w
| parse_failure pod annotationValue err :
    controller.GetPod c req w = inr pod →
    pod_Annotations pod !! controller.AnnotationKey = Some annotationValue →
    annotation.ParseAnnotation yaml_parse annotationValue
      (pod_Namespace pod) (pod_Name pod) (pod_UID pod) = inl err →
    StopsBeforeUpsert yaml_parse c registry req w
| namespace_mismatch pod annotationValue syncRequest :
    controller.GetPod c req w = inr pod →
    pod_Annotations pod !! controller.AnnotationKey = Some annotationValue →
    annotation.ParseAnnotation yaml_parse annotationValue
      (pod_Namespace pod) (pod_Name pod) (pod_UID pod) = inr syncRequest →
    annotation.Namespace syncRequest ≠ pod_Namespace pod →
    StopsBeforeUpsert yaml_parse c registry req w
| unknown_provider pod annotationValue syncRequest :
    controller.GetPod c req w = inr pod →
    pod_Annotations pod !! controller.AnnotationKey = Some annotationValue →
    annotation.ParseAnnotation yaml_parse annotationValue
      (pod_Namespace pod) (pod_Name pod) (pod_UID pod) = inr syncRequest →
    provider.Get registry (annotation.Provider syncRequest) = None →
    StopsBeforeUpsert yaml_parse c registry req w
| fetch_failure pod annotationValue syncRequest secretProvider err :
    controller.GetPod c req w = inr pod →
    pod_Annotations pod !! controller.AnnotationKey = Some annotationValue →
    annotation.ParseAnnotation yaml_parse annotationValue
      (pod_Namespace pod) (pod_Name pod) (pod_UID pod) = inr syncRequest →
    provider.Get registry (annotation.Provider syncRequest) = Some secretProvider →
    provider.FetchSecret secretProvider (annotation.SecretPath syncRequest) = inl err →
    StopsBeforeUpsert yaml_parse c registry req w.

(** A store call that writes. *)
Definition is_write (call : controller.Call) : bool :=
  match call with
  | controller.CallCreate _ | controller.CallUpdate _ => true
  | _ => false
  end.

(** C2 as the spec words it: a fetch that fails with a permanent error
    ends the run as a success with no retry asked for. *)
Definition permanent_fetch_failure_is_terminal : Prop :=
  ∀ W (yaml_parse : string → error + yaml.Node) (c : controller.Client W)
    registry now req w pod annotationValue syncRequest secretProvider err,
    controller.GetPod c req w = inr pod →
    pod_Annotations pod !! controller.AnnotationKey = Some annotationValue →
    annotation.ParseAnnotation yaml_parse annotationValue
      (pod_Namespace pod) (pod_Name pod) (pod_UID pod) = inr syncRequest →
    provider.Get registry (annotation.Provider syncRequest) = Some secretProvider →
    provider.FetchSecret secretProvider (annotation.SecretPath syncRequest) = inl err →
    IsPermanent err = true →
    controller.result (controller.Reconcile yaml_parse c registry now req w)
    = {| controller.Requeue := false |} ∧
    controller.err (controller.Reconcile yaml_parse c registry now req w) = None.

(** A workload unit asks for a secret when its annotation parses to a
    request that names it. *)
Definition requests_secret (yaml_parse : string → error + yaml.Node)
    (secret : Secret) (pod : Pod) : Prop :=
  ∃ annotationValue syncRequest,
    pod_Annotations pod !! controller.AnnotationKey = Some annotationValue ∧
    annotation.ParseAnnotation yaml_parse annotationValue
      (pod_Namespace pod) (pod_Name pod) (pod_UID pod) = inr syncRequest ∧
    annotation.SecretName syncRequest = secret_Name secret.

(** The notifications among the calls of a run, and the objects the run
    handed to [Create] or [Update]. *)
Definition emitted (calls : list controller.Call) : list events.Event :=
  omap (fun call => match call with
                    | controller.CallEventf event => Some event
                    | _ => None
                    end) calls.

Definition written (calls : list controller.Call) : list Secret :=
  omap (fun call => match call with
                    | controller.CallCreate secret
                    | controller.CallUpdate secret => Some secret
                    | _ => None
                    end) calls.

Definition fetches (calls : list controller.Call) : list (string * string) :=
  omap (fun call => match call with
                    | controller.CallFetchSecret provider path => Some (provider, path)
                    | _ => None
                    end) calls.

(** A store in which every secret sits under its own namespace and
    name, as the API server keeps it. *)
Definition store_keyed (w : controller.Cluster) : Prop :=
  ∀ key secret, controller.secrets w !! key = Some secret →
                ObjectKeyFromSecret secret = key.

(** ** Documents of the tests and of the scenarios *)

Module testdata.

Import annotation provider events controller.

Definition doc_plain : string :=
  "provider: aws-secretsmanager" +:+ nl +:+
  "path: /prod/myapp/database" +:+ nl +:+
  "secretName: db-credentials".

Definition doc_keys : string :=
  doc_plain +:+ nl +:+
  "keys:" +:+ nl +:+
  "  database: DB_HOST" +:+ nl +:+
  "  password: DB_PASSWORD".

Definition doc_invalid : string := "{invalid".

Definition doc_no_provider : string :=
  "path: /test" +:+ nl +:+ "secretName: test".

Definition doc_no_path : string :=
  "provider: aws-secretsmanager" +:+ nl +:+ "secretName: test".

Definition doc_no_secretName : string :=
  "provider: aws-secretsmanager" +:+ nl +:+ "path: /test".

Definition doc_vault : string :=
  "provider: vault" +:+ nl +:+
  "path: secret/data/myapp" +:+ nl +:+
  "secretName: db-credentials".

Definition doc_namespace : string :=
  doc_plain +:+ nl +:+ "namespace: kube-system".

Definition doc_bad_name : string :=
  "provider: aws-secretsmanager" +:+ nl +:+
  "path: /prod/myapp/database" +:+ nl +:+
  "secretName: DB_Credentials".

Definition doc_missing : string :=
  "provider: aws-secretsmanager" +:+ nl +:+
  "path: /prod/myapp/absent" +:+ nl +:+
  "secretName: db-credentials".

Definition plain_entries : gmap string yaml.Node :=
  <["provider" := yaml.Scalar "aws-secretsmanager"]>
  (<["path" := yaml.Scalar "/prod/myapp/database"]>
  (<["secretName" := yaml.Scalar "db-credentials"]> ∅)).

(** The trees [yaml.v3] builds for the documents above. *)
Definition documents : list (string * (error + yaml.Node)) :=
  [ (doc_plain, inr (yaml.Mapping plain_entries));
    (doc_keys,
     inr (yaml.Mapping
            (<["keys" := yaml.Mapping
                           (<["database" := yaml.Scalar "DB_HOST"]>
                           (<["password" := yaml.Scalar "DB_PASSWORD"]> ∅))]>
               plain_entries)));
    (doc_invalid,
     inl (errorString "yaml: line 1: did not find expected ',' or '}'"));
    (doc_no_provider,
     inr (yaml.Mapping (<["path" := yaml.Scalar "/test"]>
                       (<["secretName" := yaml.Scalar "test"]> ∅))));
    (doc_no_path,
     inr (yaml.Mapping (<["provider" := yaml.Scalar "aws-secretsmanager"]>
                       (<["secretName" := yaml.Scalar "test"]> ∅))));
    (doc_no_secretName,
     inr (yaml.Mapping (<["provider" := yaml.Scalar "aws-secretsmanager"]>
                       (<["path" := yaml.Scalar "/test"]> ∅))));
    (doc_vault,
     inr (yaml.Mapping (<["provider" := yaml.Scalar "vault"]>
                       (<["path" := yaml.Scalar "secret/data/myapp"]>
                       (<["secretName" := yaml.Scalar "db-credentials"]> ∅)))));
    (doc_namespace,
     inr (yaml.Mapping (<["namespace" := yaml.Scalar "kube-system"]> plain_entries)));
    (doc_bad_name,
     inr (yaml.Mapping (<["secretName" := yaml.Scalar "DB_Credentials"]> plain_entries)));
    (doc_missing,
     inr (yaml.Mapping (<["path" := yaml.Scalar "/prod/myapp/absent"]> plain_entries)))
  ].

Fixpoint assoc {A} (l : list (string * A)) (key : string) : option A :=
  match l with
  | [] => None
  | (k, v) :: l => if bool_decide (k = key) then Some v else assoc l key
  end.

(** [yaml.v3] on the documents above; the empty text is the empty
    document, and no other text is asked of it. *)
Definition yaml_parse (text : string) : error + yaml.Node :=
  if bool_decide (text = EmptyString) then inr yaml.Null
  else default (inl (errorString "yaml: not one of the documents"))
               (assoc documents text).

(** Go's double quote, and a quoted JSON string. *)
Definition dq : string := String (Ascii.ascii_of_nat 34) EmptyString.
Definition q (s : string) : string := dq +:+ s +:+ dq.

(** [fmt]'s [%v] at the numbers of the provider's tests. *)
Definition Sprintf_v_float64 (v : float) : string :=
  if (v =? 5432)%float then "5432"
  else if (v =? 3306)%float then "3306"
  else if (v =? 30)%float then "30"
  else "NaN".

(** [json.Marshal] at the composite values of the provider's tests:
    arrays of strings, numbers, booleans and nulls. *)
Definition json_Marshal_item (v : json_value) : string :=
  match v with
  | json_nil => "null"
  | json_string s => q s
  | json_float64 f => Sprintf_v_float64 f
  | json_bool b => Sprintf_v_bool b
  | _ => EmptyString
  end.

Definition json_Marshal (v : json_value) : string :=
  match v with
  | json_slice items =>
    "[" +:+ String.concat "," (json_Marshal_item <$> items) +:+ "]"
  | v => json_Marshal_item v
  end.

Definition json_database : string :=
  "{" +:+ q "DB_HOST" +:+ ":" +:+ q "h" +:+ "," +:+
          q "DB_PASSWORD" +:+ ":" +:+ q "p" +:+ "}".

Definition json_mixed : string :=
  "{" +:+ q "username" +:+ ":" +:+ q "admin" +:+ "," +:+
          q "port" +:+ ":3306," +:+ q "ssl" +:+ ":true," +:+
          q "timeout" +:+ ":null," +:+
          q "hosts" +:+ ":[" +:+ q "host1" +:+ "," +:+ q "host2" +:+ "]}".

Definition database : gmap string string :=
  <["DB_HOST" := "h"]> (<["DB_PASSWORD" := "p"]> ∅).

Definition mixed : gmap string json_value :=
  <["username" := json_string "admin"]>
  (<["port" := json_float64 3306]>
  (<["ssl" := json_bool true]>
  (<["timeout" := json_nil]>
  (<["hosts" := json_slice [json_string "host1"; json_string "host2"]]> ∅)))).

(** [json.Unmarshal] on the two secret values above. *)
Definition json_Unmarshal (text : string) : error + gmap string json_value :=
  default (inl (errorString "invalid character 'i' looking for beginning of object key string"))
          (assoc [ (json_database, inr (json_string <$> database));
                   (json_mixed, inr mixed) ] text).

(** Secrets Manager holding the database secret and the mixed one, and
    nothing else. *)
Definition secretsmanager : AWSSecretsManagerProvider :=
  {| client path :=
       if bool_decide (path = "/prod/myapp/database") then inr (Some json_database)
       else if bool_decide (path = "/prod/myapp/mixed") then inr (Some json_mixed)
       else inl (OperationError "ResourceNotFoundException"
                   "Secrets Manager can't find the specified secret.") |}.

(** What [FetchSecret] answers for a path Secrets Manager does not have. *)
Definition absent_secret_error : error :=
  Errorf_w "failed to fetch secret from AWS Secrets Manager: "
    (OperationError "ResourceNotFoundException"
       "Secrets Manager can't find the specified secret.").

Definition aws : SecretProvider :=
  AWS_SecretProvider json_Unmarshal json_Marshal Sprintf_v_float64 secretsmanager.

Definition registry : ProviderRegistry := Register NewProviderRegistry aws.

Definition now : string := "2025-10-24T12:00:00Z".

Definition pod_with (name annotationValue : string) : Pod :=
  {| pod_Namespace := "default"; pod_Name := name; pod_UID := "uid-" +:+ name;
     pod_Annotations := {[ controller.AnnotationKey := annotationValue ]} |}.

(** The managed secret of an earlier run, with a key the source no
    longer has. *)
Definition stale_secret : Secret :=
  {| secret_Namespace := "default"; secret_Name := "db-credentials";
     Labels := {[ ManagedByLabel := ManagedByValue ]};
     Annotations := {[ SourcePathAnnotation := "/prod/myapp/database";
                       SyncedAtAnnotation := "2025-10-23T12:00:00Z" ]};
     Data := <["DB_HOST" := "old"]> (<["DB_PORT" := "5432"]> ∅);
     StringData := ∅;
     secret_Type := SecretTypeOpaque |}.

Definition cluster (pods : list Pod) (secrets : list Secret) : Cluster :=
  {| pods := pods;
     secrets := list_to_map ((fun s => (ObjectKeyFromSecret s, s)) <$> secrets) |}.


(** An AWS configuration that loads, and one that does not. *)
Definition NewFromConfig (cfg : unit) : string → error + option string :=
  client secretsmanager.

Definition no_credentials : error :=
  errorString "failed to refresh cached credentials, no EC2 IMDS role found".



Definition store_stale : Cluster :=
  cluster [pod_with "app" doc_plain] [stale_secret].

End testdata.


(** * Properties *)

(** ** The annotation parser *)

Section ParserFacts.

Import annotation.

Variable yaml_parse : string → error + yaml.Node.

Local Ltac unfold_parser :=
  unfold ParseAnnotation, EmptyPayload, MalformedPayload, MissingField.

(** A key the payload does not have leaves its field empty. *)
Lemma absent_key_decodes_empty (entries : gmap string yaml.Node) pa :
  decode_PodAnnotation (yaml.Mapping entries) = inr pa →
  (entries !! "provider" = None → pa_Provider pa = EmptyString) ∧
  (entries !! "path" = None → pa_Path pa = EmptyString) ∧
  (entries !! "secretName" = None → pa_SecretName pa = EmptyString) ∧
  (entries !! "keys" = None → pa_Keys pa = ∅).
Proof.
  unfold decode_PodAnnotation, yaml.field. intros Hdec.
  destruct (entries !! "provider") as [p|] eqn:Hp;
    [destruct (yaml.decode_string p) eqn:? | ];
  (destruct (entries !! "path") as [q|] eqn:Hq;
    [destruct (yaml.decode_string q) eqn:? | ]);
  (destruct (entries !! "secretName") as [r|] eqn:Hr;
    [destruct (yaml.decode_string r) eqn:? | ]);
  (destruct (entries !! "keys") as [k|] eqn:Hk;
    [destruct (yaml.decode_string_map k) eqn:? | ]);
  simplify_eq; simpl; repeat split; intros; by simplify_eq.
Qed.

(** Text that does not parse is a malformed payload. *)
Lemma ParseAnnotation_malformed text namespace podName podUID err :
  text ≠ EmptyString →
  yaml_Unmarshal yaml_parse text = inl err →
  ParseAnnotation yaml_parse text namespace podName podUID
  = inl (MalformedPayload err).
Proof.
  intros Hne Herr. unfold_parser.
  rewrite bool_decide_eq_false_2 by done. by rewrite Herr.
Qed.

(** C4: [ParseAnnotation] fails with [EmptyPayload] on the empty text;
    on a payload that parses with an empty (or absent) provider, path
    or secretName it fails with [MissingField] of the first such field,
    in that order; and on a payload with all three it succeeds, the
    key mapping carried through as parsed. *)
Theorem ParseAnnotation_validation (text namespace podName podUID : string) :
  (text = EmptyString →
   ParseAnnotation yaml_parse text namespace podName podUID = inl EmptyPayload) ∧
  (∀ pa, text ≠ EmptyString → yaml_Unmarshal yaml_parse text = inr pa →
     (pa_Provider pa = EmptyString →
      ParseAnnotation yaml_parse text namespace podName podUID
      = inl (MissingField "provider")) ∧
     (pa_Provider pa ≠ EmptyString → pa_Path pa = EmptyString →
      ParseAnnotation yaml_parse text namespace podName podUID
      = inl (MissingField "path")) ∧
     (pa_Provider pa ≠ EmptyString → pa_Path pa ≠ EmptyString →
      pa_SecretName pa = EmptyString →
      ParseAnnotation yaml_parse text namespace podName podUID
      = inl (MissingField "secretName")) ∧
     (pa_Provider pa ≠ EmptyString → pa_Path pa ≠ EmptyString →
      pa_SecretName pa ≠ EmptyString →
      ParseAnnotation yaml_parse text namespace podName podUID
      = inr {| Provider := pa_Provider pa; SecretPath := pa_Path pa;
               SecretName := pa_SecretName pa; Namespace := namespace;
               PodName := podName; PodUID := podUID;
               KeyMapping := pa_Keys pa |})).
Proof.
  split.
  - intros ->. reflexivity.
  - intros pa Hne Hpa. unfold_parser.
    rewrite bool_decide_eq_false_2 by done. rewrite Hpa.
    repeat split; intros; repeat case_bool_decide; done.
Qed.

(** A successful parse, taken apart. *)
Lemma ParseAnnotation_inr text namespace podName podUID req :
  ParseAnnotation yaml_parse text namespace podName podUID = inr req →
  ∃ pa, yaml_Unmarshal yaml_parse text = inr pa ∧
        req = {| Provider := pa_Provider pa; SecretPath := pa_Path pa;
                 SecretName := pa_SecretName pa; Namespace := namespace;
                 PodName := podName; PodUID := podUID;
                 KeyMapping := pa_Keys pa |}.
Proof.
  unfold ParseAnnotation. intros H.
  case_bool_decide; [done|].
  destruct (yaml_Unmarshal yaml_parse text) as [|pa]; [done|].
  repeat case_bool_decide; simplify_eq. eauto.
Qed.

(** The namespace of a request is the one handed to the parser. *)
Lemma ParseAnnotation_Namespace text namespace podName podUID req :
  ParseAnnotation yaml_parse text namespace podName podUID = inr req →
  Namespace req = namespace.
Proof. by intros (pa & _ & ->)%ParseAnnotation_inr. Qed.

(** The decoder does not read a [namespace] key. *)
Lemma decode_ignores_namespace (entries : gmap string yaml.Node) :
  decode_PodAnnotation (yaml.Mapping entries)
  = decode_PodAnnotation (yaml.Mapping (delete "namespace" entries)).
Proof.
  unfold decode_PodAnnotation, yaml.field.
  by rewrite !lookup_delete_ne.
Qed.

(** C6, as the code has it: a request that parses carries the namespace
    of the workload unit passed in, so the reconciler's comparison of
    the two never finds a difference; and a [namespace] key in the
    payload is not read: the payload decodes as it does without it. *)
Theorem ParseAnnotation_namespace_of_unit text namespace podName podUID req :
  ParseAnnotation yaml_parse text namespace podName podUID = inr req →
  Namespace req = namespace ∧
  bool_decide (Namespace req ≠ namespace) = false ∧
  ∀ entries, yaml_parse text = inr (yaml.Mapping entries) →
    yaml_Unmarshal yaml_parse text
    = decode_PodAnnotation (yaml.Mapping (delete "namespace" entries)).
Proof.
  intros Hparse. pose proof (ParseAnnotation_Namespace _ _ _ _ _ Hparse) as Hns.
  split; [done|]. split; [by apply bool_decide_eq_false_2; intros []|].
  intros entries Hdoc. unfold yaml_Unmarshal. rewrite Hdoc.
  apply decode_ignores_namespace.
Qed.

End ParserFacts.

(** The cases of C4 at the documents of the parser's tests. *)
Lemma ParseAnnotation_validation_witness :
  annotation.ParseAnnotation testdata.yaml_parse EmptyString "default" "test-pod" "uid-123"
  = inl EmptyPayload ∧
  annotation.ParseAnnotation testdata.yaml_parse testdata.doc_no_provider
    "default" "test-pod" "uid-123" = inl (MissingField "provider") ∧
  annotation.ParseAnnotation testdata.yaml_parse testdata.doc_no_path
    "default" "test-pod" "uid-123" = inl (MissingField "path") ∧
  annotation.ParseAnnotation testdata.yaml_parse testdata.doc_no_secretName
    "default" "test-pod" "uid-123" = inl (MissingField "secretName") ∧
  annotation.ParseAnnotation testdata.yaml_parse testdata.doc_keys
    "default" "test-pod" "uid-123"
  = inr {| annotation.Provider := "aws-secretsmanager";
           annotation.SecretPath := "/prod/myapp/database";
           annotation.SecretName := "db-credentials";
           annotation.Namespace := "default";
           annotation.PodName := "test-pod";
           annotation.PodUID := "uid-123";
           annotation.KeyMapping :=
             <["database" := "DB_HOST"]> (<["password" := "DB_PASSWORD"]> ∅) |}.
Proof.
  split; [|split; [|split; [|split]]].
  - apply (ParseAnnotation_validation testdata.yaml_parse
             EmptyString "default" "test-pod" "uid-123").
    reflexivity.
  - edestruct (ParseAnnotation_validation testdata.yaml_parse
                 testdata.doc_no_provider "default" "test-pod" "uid-123")
      as [_ H].
    edestruct H as (H1 & _); [by vm_compute | reflexivity |].
    apply H1. reflexivity.
  - edestruct (ParseAnnotation_validation testdata.yaml_parse
                 testdata.doc_no_path "default" "test-pod" "uid-123")
      as [_ H].
    edestruct H as (_ & H2 & _); [by vm_compute | reflexivity |].
    apply H2; [by vm_compute | reflexivity].
  - edestruct (ParseAnnotation_validation testdata.yaml_parse
                 testdata.doc_no_secretName "default" "test-pod" "uid-123")
      as [_ H].
    edestruct H as (_ & _ & H3 & _); [by vm_compute | reflexivity |].
    apply H3; [by vm_compute | by vm_compute | reflexivity].
  - edestruct (ParseAnnotation_validation testdata.yaml_parse
                 testdata.doc_keys "default" "test-pod" "uid-123")
      as [_ H].
    edestruct H as (_ & _ & _ & H4); [by vm_compute | reflexivity |].
    rewrite H4; [reflexivity | by vm_compute ..].
Defined.

(** C6 at the plain document, parsed for a pod in [default]. *)
Lemma ParseAnnotation_namespace_of_unit_witness :
  ∃ req,
    annotation.ParseAnnotation testdata.yaml_parse testdata.doc_plain
      "default" "test-pod" "uid-123" = inr req ∧
    annotation.Namespace req = "default".
Proof.
  eexists. split; [vm_compute; reflexivity|].
  eapply (ParseAnnotation_namespace_of_unit testdata.yaml_parse
            testdata.doc_plain "default" "test-pod" "uid-123").
  vm_compute. reflexivity.
Defined.

(** C6 as the spec words it does not hold: the document that asks for
    [kube-system] on a pod of [default] parses, and the request is for
    [default]. *)
Lemma namespace_disagreement_is_refused_counterexample :
  ¬ namespace_disagreement_is_refused.
Proof.
  intros H.
  destruct (H testdata.yaml_parse testdata.doc_namespace
              "default" "test-pod" "uid-123"
              (yaml.Mapping (<["namespace" := yaml.Scalar "kube-system"]>
                               testdata.plain_entries))
              "kube-system") as [err Herr].
  - vm_compute. reflexivity.
  - reflexivity.
  - discriminate.
  - vm_compute in Herr. discriminate.
Qed.

(** C9, the code at a name outside the charset: [DB_Credentials] has
    capitals and an underscore, and [ParseAnnotation] returns it. *)
Theorem ParseAnnotation_returns_unchecked_name :
  resource_name_charset "DB_Credentials" = false ∧
  annotation.ParseAnnotation testdata.yaml_parse testdata.doc_bad_name
    "default" "test-pod" "uid-123"
  = inr {| annotation.Provider := "aws-secretsmanager";
           annotation.SecretPath := "/prod/myapp/database";
           annotation.SecretName := "DB_Credentials";
           annotation.Namespace := "default";
           annotation.PodName := "test-pod";
           annotation.PodUID := "uid-123";
           annotation.KeyMapping := ∅ |}.
Proof. split; vm_compute; reflexivity. Qed.

(** ** The merge of the fetched data *)

Section MergeFacts.

Import controller.

Implicit Types KeyMapping secretData : gmap string string.

(** Copying every entry into a fresh map gives the map back. *)
Lemma copy_all secretData :
  map_fold (fun k v (acc : gmap string string) => <[k := v]> acc) ∅ secretData
  = secretData.
Proof.
  apply (map_fold_weak_ind (fun r (m : gmap string string) => r = m)).
  - done.
  - by intros k v m r _ ->.
Qed.

(** The loop over the mapping, entry by entry. *)
Lemma mapped_lookup KeyMapping secretData (kubernetesKey : string) :
  map_fold (fun kubernetesKey awsSecretKey (acc : gmap string string) =>
              match secretData !! awsSecretKey with
              | Some value => <[kubernetesKey := value]> acc
              | None => acc
              end) ∅ KeyMapping !! kubernetesKey
  = KeyMapping !! kubernetesKey ≫= (secretData !!.).
Proof.
  revert kubernetesKey.
  apply (map_fold_weak_ind
           (fun (r : gmap string string) (m : gmap string string) =>
              ∀ k : string, r !! k = m !! k ≫= (secretData !!.))).
  - intros k. by rewrite !lookup_empty.
  - intros i src m r Hi IH k.
    destruct (decide (i = k)) as [->|Hne].
    + rewrite lookup_insert_eq. simpl.
      destruct (secretData !! src) as [value|] eqn:Hsrc.
      * by rewrite lookup_insert_eq.
      * by rewrite IH, Hi.
    + rewrite (lookup_insert_ne m) by done.
      destruct (secretData !! src); [rewrite lookup_insert_ne by done|]; apply IH.
Qed.

Lemma size_positive_iff KeyMapping :
  bool_decide (0 < size KeyMapping) = true ↔ KeyMapping ≠ ∅.
Proof.
  rewrite bool_decide_eq_true, <-map_size_non_empty_iff. lia.
Qed.

(** C3: with a key mapping that has entries, the payload has exactly
    the target keys whose source key was fetched, each with the value
    fetched for its source key, a target key whose source key is absent
    having no entry at all; without entries in the mapping the payload
    is the fetched data. *)
Theorem secretStringData_merge KeyMapping secretData :
  (KeyMapping ≠ ∅ →
   (∀ kubernetesKey,
      kubernetesKey ∈ dom (secretStringData KeyMapping secretData) ↔
      ∃ awsSecretKey, KeyMapping !! kubernetesKey = Some awsSecretKey ∧
                      awsSecretKey ∈ dom secretData) ∧
   (∀ kubernetesKey awsSecretKey,
      KeyMapping !! kubernetesKey = Some awsSecretKey →
      secretStringData KeyMapping secretData !! kubernetesKey
      = secretData !! awsSecretKey)) ∧
  (KeyMapping = ∅ → secretStringData KeyMapping secretData = secretData).
Proof.
  unfold secretStringData. split.
  - intros Hne. rewrite (proj2 (size_positive_iff _) Hne). split.
    + intros k. rewrite elem_of_dom, mapped_lookup. split.
      * intros [value Hvalue].
        destruct (KeyMapping !! k) as [src|] eqn:Hk; [|done].
        exists src. split; [done|]. apply elem_of_dom. by exists value.
      * intros (src & Hk & [value Hvalue]%elem_of_dom).
        rewrite Hk. simpl. by exists value.
    + intros k src Hk. by rewrite mapped_lookup, Hk.
  - intros ->. rewrite bool_decide_eq_false_2; [apply copy_all|].
    rewrite map_size_empty. lia.
Qed.

End MergeFacts.

(** C3 at the second scenario, with one more mapping entry whose source
    key was not fetched. *)
Lemma secretStringData_merge_witness :
  let KeyMapping : gmap string string :=
    <["database" := "DB_HOST"]> (<["password" := "DB_PASSWORD"]>
    (<["username" := "DB_USER"]> ∅)) in
  controller.secretStringData KeyMapping testdata.database !! "database" = Some "h" ∧
  controller.secretStringData KeyMapping testdata.database !! "username" = None ∧
  controller.secretStringData ∅ testdata.database = testdata.database.
Proof.
  intros KeyMapping.
  destruct (secretStringData_merge KeyMapping testdata.database) as [Hmap _].
  destruct Hmap as [_ Hval]; [by vm_compute|].
  split; [|split].
  - rewrite (Hval "database" "DB_HOST"); reflexivity.
  - rewrite (Hval "username" "DB_USER"); reflexivity.
  - apply (secretStringData_merge ∅ testdata.database). reflexivity.
Defined.


(** ** The reconciliation *)

Section ReconcileFacts.

Import annotation provider events controller.

Variable yaml_parse : string → error + yaml.Node.
Context {W : Type}.
Variable c : Client W.
Variable registry : ProviderRegistry.
Variable now : string.

(** The run up to the fetch, when every step before it goes through. *)
Lemma Reconcile_until_fetch req w pod annotationValue syncRequest secretProvider :
  GetPod c req w = inr pod →
  pod_Annotations pod !! AnnotationKey = Some annotationValue →
  ParseAnnotation yaml_parse annotationValue
    (pod_Namespace pod) (pod_Name pod) (pod_UID pod) = inr syncRequest →
  Get registry (Provider syncRequest) = Some secretProvider →
  Reconcile yaml_parse c registry now req w
  = after [CallGetPod req]
      (match FetchSecret secretProvider (SecretPath syncRequest) with
       | inl err =>
         {| result := {| Requeue := true |}; err := Some err; world := w;
            calls := [CallFetchSecret (Provider syncRequest) (SecretPath syncRequest);
                      CallEventf (EmitSecretFetchFailed pod (Provider syncRequest)
                                    (SecretPath syncRequest) err)] |}
       | inr secretData =>
         after [CallFetchSecret (Provider syncRequest) (SecretPath syncRequest)]
               (upsert c now pod syncRequest secretData w)
       end).
Proof.
  intros Hpod Hann Hparse Hget.
  unfold Reconcile, reconcilePod. rewrite Hpod, Hann, Hparse.
  rewrite (ParseAnnotation_Namespace _ _ _ _ _ _ Hparse).
  rewrite bool_decide_eq_false_2 by (by intros []).
  by rewrite Hget.
Qed.

(** C5: a reconciliation that ends before the upsert step, by any of
    the ways of [StopsBeforeUpsert], leaves the store as it found it and
    makes no create and no update call. *)
Theorem Reconcile_stops_without_write req w :
  StopsBeforeUpsert yaml_parse c registry req w →
  world (Reconcile yaml_parse c registry now req w) = w ∧
  forallb (fun call => negb (is_write call))
          (calls (Reconcile yaml_parse c registry now req w)) = true.
Proof.
  intros [err Hpod
         |pod Hpod Hann
         |pod text err Hpod Hann Hparse
         |pod text syncRequest Hpod Hann Hparse Hns
         |pod text syncRequest Hpod Hann Hparse Hget
         |pod text syncRequest secretProvider err Hpod Hann Hparse Hget Hfetch].
  - unfold Reconcile. by rewrite Hpod.
  - unfold Reconcile, reconcilePod. by rewrite Hpod, Hann.
  - unfold Reconcile, reconcilePod. by rewrite Hpod, Hann, Hparse.
  - unfold Reconcile, reconcilePod. rewrite Hpod, Hann, Hparse.
    by rewrite bool_decide_eq_true_2.
  - unfold Reconcile, reconcilePod. rewrite Hpod, Hann, Hparse, Hget.
    by case_bool_decide.
  - erewrite Reconcile_until_fetch by done. by rewrite Hfetch.
Qed.

(** C2, as the code has it: a fetch that fails, whatever the error,
    leaves the store untouched, emits [SecretFetchFailed] with that
    error, and hands the error back to the runtime with a requeue
    asked for. *)
Theorem Reconcile_fetch_failure_is_retried
    req w pod annotationValue syncRequest secretProvider fetchErr :
  GetPod c req w = inr pod →
  pod_Annotations pod !! AnnotationKey = Some annotationValue →
  ParseAnnotation yaml_parse annotationValue
    (pod_Namespace pod) (pod_Name pod) (pod_UID pod) = inr syncRequest →
  Get registry (Provider syncRequest) = Some secretProvider →
  FetchSecret secretProvider (SecretPath syncRequest) = inl fetchErr →
  Reconcile yaml_parse c registry now req w
  = {| result := {| Requeue := true |};
       err := Some fetchErr;
       world := w;
       calls := [CallGetPod req;
                 CallFetchSecret (Provider syncRequest) (SecretPath syncRequest);
                 CallEventf (EmitSecretFetchFailed pod (Provider syncRequest)
                               (SecretPath syncRequest) fetchErr)] |}.
Proof.
  intros Hpod Hann Hparse Hget Hfetch.
  erewrite Reconcile_until_fetch by done. by rewrite Hfetch.
Qed.

End ReconcileFacts.

(** C5 at the third scenario: the annotation [{invalid] on a pod whose
    namespace already holds a managed secret. *)
Lemma Reconcile_stops_without_write_witness :
  let w := testdata.cluster [testdata.pod_with "app" testdata.doc_invalid]
                            [testdata.stale_secret] in
  let run := controller.Reconcile testdata.yaml_parse controller.apiserver
               testdata.registry testdata.now ("default", "app") w in
  controller.world run = w ∧
  forallb (fun call => negb (is_write call)) (controller.calls run) = true.
Proof.
  intros w run. apply Reconcile_stops_without_write.
  eapply parse_failure
    with (pod := testdata.pod_with "app" testdata.doc_invalid)
         (annotationValue := testdata.doc_invalid);
    reflexivity.
Defined.

(** C2 at the fifth scenario: the fetch of a secret that does not exist
    is handed back for a retry. *)
Lemma Reconcile_fetch_failure_is_retried_witness :
  let w := testdata.cluster [testdata.pod_with "app" testdata.doc_missing] [] in
  let run := controller.Reconcile testdata.yaml_parse controller.apiserver
               testdata.registry testdata.now ("default", "app") w in
  controller.result run = {| controller.Requeue := true |} ∧
  controller.err run = Some testdata.absent_secret_error ∧
  controller.world run = w.
Proof.
  intros w run. unfold run.
  erewrite (Reconcile_fetch_failure_is_retried testdata.yaml_parse
              controller.apiserver testdata.registry testdata.now
              ("default", "app") w
              (testdata.pod_with "app" testdata.doc_missing)
              testdata.doc_missing _ testdata.aws testdata.absent_secret_error);
    [by repeat split | reflexivity ..].
Defined.

(** C2 as the spec words it does not hold: in the same run the failure
    is a not-found one, a permanent error, and the run answers with a
    requeue and the error. *)
Lemma permanent_fetch_failure_is_terminal_counterexample :
  ¬ permanent_fetch_failure_is_terminal.
Proof.
  intros H.
  destruct (H controller.Cluster testdata.yaml_parse controller.apiserver
              testdata.registry testdata.now ("default", "app")
              (testdata.cluster [testdata.pod_with "app" testdata.doc_missing] [])
              (testdata.pod_with "app" testdata.doc_missing)
              testdata.doc_missing
              {| annotation.Provider := "aws-secretsmanager";
                 annotation.SecretPath := "/prod/myapp/absent";
                 annotation.SecretName := "db-credentials";
                 annotation.Namespace := "default";
                 annotation.PodName := "app";
                 annotation.PodUID := "uid-app";
                 annotation.KeyMapping := ∅ |}
              testdata.aws testdata.absent_secret_error) as [Hresult _];
    try (vm_compute; reflexivity).
  vm_compute in Hresult. discriminate.
Qed.

(** The scenarios of the specification, run against the store. *)

Example scenario_1_secret_created :
  let w := testdata.cluster [testdata.pod_with "app" testdata.doc_plain] [] in
  let run := controller.Reconcile testdata.yaml_parse controller.apiserver
               testdata.registry testdata.now ("default", "app") w in
  controller.result run = {| controller.Requeue := false |} ∧
  controller.err run = None ∧
  Data <$> controller.secrets (controller.world run) !! ("default", "db-credentials")
  = Some testdata.database ∧
  events.reason <$> (controller.calls run !! 4 ≫=
                       fun call => match call with
                                   | controller.CallEventf event => Some event
                                   | _ => None
                                   end)
  = Some events.EventReasonSecretSyncSuccess.
Proof. repeat split; vm_compute; reflexivity. Qed.

Example scenario_2_mapped_keys :
  let w := testdata.cluster [testdata.pod_with "app" testdata.doc_keys] [] in
  let run := controller.Reconcile testdata.yaml_parse controller.apiserver
               testdata.registry testdata.now ("default", "app") w in
  Data <$> controller.secrets (controller.world run) !! ("default", "db-credentials")
  = Some (<["database" := "h"]> (<["password" := "p"]> ∅)).
Proof. vm_compute. reflexivity. Qed.

Example scenario_4_provider_unsupported :
  let pod := testdata.pod_with "app" testdata.doc_vault in
  let w := testdata.cluster [pod] [] in
  controller.Reconcile testdata.yaml_parse controller.apiserver
    testdata.registry testdata.now ("default", "app") w
  = {| controller.result := {| controller.Requeue := false |};
       controller.err := None;
       controller.world := w;
       controller.calls :=
         [controller.CallGetPod ("default", "app");
          controller.CallEventf (events.EmitProviderNotFound pod "vault")] |}.
Proof. vm_compute. reflexivity. Qed.

(** ** The reverse lookup *)

Section ReverseLookupFacts.

Import annotation provider events controller.

Variable yaml_parse : string → error + yaml.Node.

(** One turn of the loop adds the pod's key when the pod asks for the
    secret, and nothing otherwise. *)
Lemma appendIfReferenced_elem secret requests pod key :
  key ∈ appendIfReferenced yaml_parse secret requests pod ↔
  key ∈ requests ∨ (ObjectKeyFromPod pod = key ∧ requests_secret yaml_parse secret pod).
Proof.
  unfold appendIfReferenced, requests_secret.
  destruct (pod_Annotations pod !! AnnotationKey) as [text|] eqn:Hann.
  - destruct (ParseAnnotation yaml_parse text _ _ _) as [e|syncRequest] eqn:Hparse.
    + split; [by left|]. intros [?|(_ & ? & ? & ? & ? & ?)]; [done|].
      simplify_eq; congruence.
    + case_bool_decide as Hname.
      * rewrite elem_of_app, list_elem_of_singleton. split.
        -- intros [?| ->]; [by left|]. right. split; [done|]. eauto.
        -- intros [?|[<- _]]; [by left|by right].
      * split; [by left|]. intros [?|(_ & ? & ? & ? & ? & ?)]; [done|].
        simplify_eq; congruence.
  - split; [by left|]. intros [?|(_ & ? & ? & ? & ? & ?)]; [done|].
    simplify_eq; congruence.
Qed.

(** The whole loop, from any list of requests gathered so far. *)
Lemma foldl_appendIfReferenced_elem secret Items requests key :
  key ∈ foldl (appendIfReferenced yaml_parse secret) requests Items ↔
  key ∈ requests ∨
  ∃ pod, pod ∈ Items ∧ ObjectKeyFromPod pod = key ∧
         requests_secret yaml_parse secret pod.
Proof.
  revert requests. induction Items as [|pod Items IH]; intros requests; simpl.
  - split; [by left|]. intros [?|(? & []%elem_of_nil & _)]. done.
  - rewrite IH, appendIfReferenced_elem. split.
    + intros [[?|[? ?]]|(pod' & ? & ? & ?)].
      * by left.
      * right. exists pod. split; [left|done].
      * right. exists pod'. split; [by right|done].
    + intros [?|(pod' & Hin & ? & ?)].
      * by left; left.
      * apply elem_of_cons in Hin as [-> | ?].
        -- by left; right.
        -- right. by exists pod'.
Qed.

(** A listing that fails enqueues nothing, whatever the store. *)
Lemma findPodsForSecret_list_fails {W} (c : Client W) secret w e :
  ListPods c (secret_Namespace secret) w = inl e →
  findPodsForSecret yaml_parse c secret w = [].
Proof.
  intros Hlist. unfold findPodsForSecret. rewrite Hlist. by case_bool_decide.
Qed.

(** The label test of [findPodsForSecret]. *)
Lemma managed_label_test (secret : Secret) :
  bool_decide (default EmptyString (Labels secret !! ManagedByLabel) ≠ ManagedByValue)
  = false ↔ Labels secret !! ManagedByLabel = Some ManagedByValue.
Proof.
  rewrite bool_decide_eq_false.
  destruct (Labels secret !! ManagedByLabel) as [v|]; simpl.
  - split; [intros H; f_equal; by destruct (decide (v = ManagedByValue))
           |intros [= ->] []; done].
  - split; [intros H; exfalso; apply H; discriminate|discriminate].
Qed.

(** C7: for a secret that carries the managed-by label, the units the
    reverse lookup enqueues are exactly the pods of the store that are
    in the secret's namespace and whose annotation is present, parses,
    and names the secret; for a secret without the label it enqueues
    none. *)
Theorem findPodsForSecret_exact (secret : Secret) (w : Cluster) :
  (Labels secret !! ManagedByLabel ≠ Some ManagedByValue →
   findPodsForSecret yaml_parse apiserver secret w = []) ∧
  (Labels secret !! ManagedByLabel = Some ManagedByValue →
   ∀ key, key ∈ findPodsForSecret yaml_parse apiserver secret w ↔
          ∃ pod, pod ∈ pods w ∧ ObjectKeyFromPod pod = key ∧
                 pod_Namespace pod = secret_Namespace secret ∧
                 requests_secret yaml_parse secret pod).
Proof.
  unfold findPodsForSecret. split.
  - intros Hlabel. rewrite bool_decide_eq_true_2; [done|].
    intros Heq. apply Hlabel, managed_label_test.
    by apply bool_decide_eq_false_2; intros [].
  - intros Hlabel%managed_label_test key. rewrite Hlabel. simpl.
    rewrite foldl_appendIfReferenced_elem. split.
    + intros [[]%elem_of_nil|(pod & Hin & Hkey & Hreq)].
      apply list_elem_of_In, filter_In in Hin as [Hin Hns].
      apply bool_decide_eq_true in Hns.
      exists pod. by rewrite list_elem_of_In.
    + intros (pod & Hin & Hkey & Hns & Hreq). right. exists pod.
      split; [|done]. apply list_elem_of_In, filter_In.
      split; [by apply list_elem_of_In|by apply bool_decide_eq_true].
Qed.

End ReverseLookupFacts.

(** C7 at a namespace with three units: one asks for the secret, one
    has an annotation that does not parse, and one asks for it from
    another namespace. *)
Lemma findPodsForSecret_exact_witness :
  let elsewhere :=
    {| pod_Namespace := "staging"; pod_Name := "app"; pod_UID := "uid-staging";
       pod_Annotations := {[ controller.AnnotationKey := testdata.doc_plain ]} |} in
  let w := testdata.cluster [testdata.pod_with "app" testdata.doc_plain;
                             testdata.pod_with "broken" testdata.doc_invalid;
                             elsewhere] [] in
  ("default", "app")
    ∈ controller.findPodsForSecret testdata.yaml_parse controller.apiserver
        testdata.stale_secret w ∧
  controller.findPodsForSecret testdata.yaml_parse controller.apiserver
    {| secret_Namespace := "default"; secret_Name := "db-credentials";
       Labels := ∅; Annotations := ∅; Data := ∅; StringData := ∅;
       secret_Type := controller.SecretTypeOpaque |} w = [].
Proof.
  intros elsewhere w. split.
  - apply (findPodsForSecret_exact testdata.yaml_parse testdata.stale_secret w);
      [reflexivity|].
    exists (testdata.pod_with "app" testdata.doc_plain).
    split; [by left|]. split; [reflexivity|]. split; [reflexivity|].
    eexists _, _. split; [reflexivity|]. split; reflexivity.
  - apply findPodsForSecret_exact. discriminate.
Defined.

(** ** The upsert against the resource store *)

Section UpsertFacts.

Import annotation provider events controller.

(** Updating a managed secret that is in the store writes the new
    payload over the old one, key by key: the stored payload is the
    merged payload together with every old entry whose key the merged
    payload does not have. *)
Lemma upsert_existing_secret now pod syncRequest secretData (w : Cluster) old :
  secrets w !! (Namespace syncRequest, SecretName syncRequest) = Some old →
  ObjectKeyFromSecret old = (Namespace syncRequest, SecretName syncRequest) →
  err (upsert apiserver now pod syncRequest secretData w) = None ∧
  Data <$> secrets (world (upsert apiserver now pod syncRequest secretData w))
             !! (Namespace syncRequest, SecretName syncRequest)
  = Some (secretStringData (KeyMapping syncRequest) secretData ∪ Data old).
Proof.
  intros Hold Hkey. injection Hkey as Hns Hname.
  unfold upsert, ObjectKeyFromSecret.
  cbn [secret_Namespace secret_Name GetSecret apiserver].
  rewrite Hold.
  cbn [IsNotFound negb andb].
  rewrite bool_decide_eq_false_2 by (by intros []).
  cbn [andb Update apiserver].
  unfold ObjectKeyFromSecret. cbn [secret_Namespace secret_Name].
  rewrite Hns, Hname, Hold.
  cbn [err world secrets stored Data StringData].
  split; [done|]. by rewrite lookup_insert_eq.
Qed.

(** Creating the managed secret when the store does not have it stores
    the merged payload and nothing else. *)
Lemma upsert_absent_secret now pod syncRequest secretData (w : Cluster) :
  secrets w !! (Namespace syncRequest, SecretName syncRequest) = None →
  err (upsert apiserver now pod syncRequest secretData w) = None ∧
  Data <$> secrets (world (upsert apiserver now pod syncRequest secretData w))
             !! (Namespace syncRequest, SecretName syncRequest)
  = Some (secretStringData (KeyMapping syncRequest) secretData).
Proof.
  intros Hnone.
  unfold upsert, ObjectKeyFromSecret.
  cbn [secret_Namespace secret_Name GetSecret apiserver].
  rewrite Hnone.
  cbn [IsNotFound NewNotFound Cause negb andb orb].
  rewrite (bool_decide_eq_true_2 (StatusReasonNotFound = StatusReasonNotFound))
    by done.
  rewrite andb_false_r.
  cbn [orb negb Create apiserver].
  unfold ObjectKeyFromSecret. cbn [secret_Namespace secret_Name].
  rewrite Hnone.
  cbn [err world secrets stored Data StringData].
  split; [done|]. rewrite lookup_insert_eq. simpl.
  by rewrite (right_id_L ∅ (∪)).
Qed.

(** C1, the code at a store that holds the managed secret with an entry
    [DB_PORT] the source no longer has: the run succeeds, the payload it
    hands to [Update] is the fetched data, without [DB_PORT], and the
    secret it leaves in the store still has [DB_PORT]. *)
Theorem Reconcile_update_keeps_stale_key :
  let w := testdata.cluster [testdata.pod_with "app" testdata.doc_plain]
                            [testdata.stale_secret] in
  let run := Reconcile testdata.yaml_parse apiserver testdata.registry
               testdata.now ("default", "app") w in
  let merged := secretStringData ∅ testdata.database in
  err run = None ∧
  (∃ secret, calls run !! 3 = Some (CallUpdate secret) ∧ StringData secret = merged) ∧
  merged !! "DB_PORT" = None ∧
  Data <$> secrets (world run) !! ("default", "db-credentials")
  = Some (<["DB_PORT" := "5432"]> merged).
Proof.
  intros w run merged. split; [reflexivity|]. split; [|split].
  - eexists. split; reflexivity.
  - reflexivity.
  - vm_compute. reflexivity.
Qed.

End UpsertFacts.

(** ** The AWS provider *)

Section ProviderFacts.

Import provider.

Variable json_Unmarshal : string → error + gmap string json_value.
Variable json_Marshal : json_value → string.
Variable Sprintf_v_float64 : float → string.

Abbreviation convertValue := (convertValue json_Marshal Sprintf_v_float64).
Abbreviation convertValues := (convertValues json_Marshal Sprintf_v_float64).
Abbreviation AWS_FetchSecret :=
  (AWS_FetchSecret json_Unmarshal json_Marshal Sprintf_v_float64).

(** The loop converts each value where it stands. *)
Lemma convertValues_fmap (rawData : gmap string json_value) :
  convertValues rawData = convertValue <$> rawData.
Proof.
  unfold provider.convertValues.
  apply (map_fold_weak_ind
           (fun (r : gmap string string) (m : gmap string json_value) =>
              r = convertValue <$> m)).
  - by rewrite fmap_empty.
  - intros key value m r _ ->. by rewrite fmap_insert.
Qed.

Lemma convertValues_lookup (rawData : gmap string json_value) key :
  convertValues rawData !! key = convertValue <$> rawData !! key.
Proof. by rewrite convertValues_fmap, lookup_fmap. Qed.

(** A secret string that decodes is fetched as its converted object. *)
Lemma AWS_FetchSecret_decoded p path SecretString rawData :
  client p path = inr (Some SecretString) →
  json_Unmarshal SecretString = inr rawData →
  AWS_FetchSecret p path = inr (convertValues rawData).
Proof. intros Hget Hjson. unfold provider.AWS_FetchSecret. by rewrite Hget, Hjson. Qed.

(** C8: for a secret string that decodes to a JSON object, the fetch
    succeeds with exactly the keys of the object; a string value is
    kept as it is, a number and a boolean are printed with [%v], and an
    array or an object is its [json.Marshal] text. *)
Theorem FetchSecret_converts_every_key p path SecretString rawData :
  client p path = inr (Some SecretString) →
  json_Unmarshal SecretString = inr rawData →
  ∃ secretData,
    AWS_FetchSecret p path = inr secretData ∧
    dom secretData = dom rawData ∧
    (∀ key v, rawData !! key = Some (json_string v) →
              secretData !! key = Some v) ∧
    (∀ key v, rawData !! key = Some (json_float64 v) →
              secretData !! key = Some (Sprintf_v_float64 v)) ∧
    (∀ key v, rawData !! key = Some (json_bool v) →
              secretData !! key = Some (if v then "true" else "false")) ∧
    (∀ key v, rawData !! key = Some (json_slice v) →
              secretData !! key = Some (json_Marshal (json_slice v))) ∧
    (∀ key v, rawData !! key = Some (json_map v) →
              secretData !! key = Some (json_Marshal (json_map v))).
Proof.
  intros Hget Hjson. exists (convertValues rawData).
  split; [by eapply AWS_FetchSecret_decoded|].
  split; [by rewrite convertValues_fmap, dom_fmap_L|].
  repeat split; intros key v Hkey; rewrite convertValues_lookup, Hkey;
    try done; by destruct v.
Qed.

(** C10: a key whose value is the JSON null is kept, with the empty
    string as its value. *)
Theorem FetchSecret_null_is_empty_string p path SecretString rawData key :
  client p path = inr (Some SecretString) →
  json_Unmarshal SecretString = inr rawData →
  rawData !! key = Some json_nil →
  ∃ secretData,
    AWS_FetchSecret p path = inr secretData ∧
    secretData !! key = Some EmptyString.
Proof.
  intros Hget Hjson Hkey. exists (convertValues rawData).
  split; [by eapply AWS_FetchSecret_decoded|].
  by rewrite convertValues_lookup, Hkey.
Qed.

End ProviderFacts.

(** C8 at the mixed secret of the provider's tests. *)
Lemma FetchSecret_converts_every_key_witness :
  ∃ secretData,
    provider.FetchSecret testdata.aws "/prod/myapp/mixed" = inr secretData ∧
    dom secretData = dom testdata.mixed ∧
    secretData !! "username" = Some "admin" ∧
    secretData !! "ssl" = Some "true" ∧
    secretData !! "port" = Some "3306".
Proof.
  destruct (FetchSecret_converts_every_key
              testdata.json_Unmarshal testdata.json_Marshal
              testdata.Sprintf_v_float64 testdata.secretsmanager
              "/prod/myapp/mixed" testdata.json_mixed testdata.mixed)
    as (secretData & Hfetch & Hdom & Hstring & Hnumber & Hbool & _);
    [reflexivity | reflexivity |].
  exists secretData. split; [exact Hfetch|]. split; [exact Hdom|].
  split; [by apply Hstring|]. split; [by apply (Hbool "ssl" true)|].
  by apply (Hnumber "port" 3306%float).
Defined.

(** C10 at the [timeout] key of the same secret. *)
Lemma FetchSecret_null_is_empty_string_witness :
  ∃ secretData,
    provider.FetchSecret testdata.aws "/prod/myapp/mixed" = inr secretData ∧
    secretData !! "timeout" = Some EmptyString.
Proof.
  apply (FetchSecret_null_is_empty_string
           testdata.json_Unmarshal testdata.json_Marshal
           testdata.Sprintf_v_float64 testdata.secretsmanager
           "/prod/myapp/mixed" testdata.json_mixed testdata.mixed "timeout");
    reflexivity.
Defined.

(** * Further properties of the code *)

(** ** The annotation parser, beyond its validation *)

Section ParserMore.

Import annotation.

Variable yaml_parse : string → error + yaml.Node.

(** X1: a request that [ParseAnnotation] returns has a non-empty
    provider, path and secret name, and carries the pod name and UID it
    was given. *)
Theorem ParseAnnotation_request_invariant text namespace podName podUID req :
  ParseAnnotation yaml_parse text namespace podName podUID = inr req →
  Provider req ≠ EmptyString ∧ SecretPath req ≠ EmptyString ∧
  SecretName req ≠ EmptyString ∧
  PodName req = podName ∧ PodUID req = podUID.
Proof.
  unfold ParseAnnotation. intros H.
  case_bool_decide; [done|].
  destruct (yaml_Unmarshal yaml_parse text) as [|pa]; [done|].
  repeat case_bool_decide; simplify_eq. done.
Qed.

(** X2: [ParseAnnotation] succeeds exactly on a non-empty text that
    unmarshals to an annotation whose provider, path and secret name are
    all non-empty. *)
Theorem ParseAnnotation_succeeds_iff text namespace podName podUID :
  (∃ req, ParseAnnotation yaml_parse text namespace podName podUID = inr req) ↔
  text ≠ EmptyString ∧
  ∃ pa, yaml_Unmarshal yaml_parse text = inr pa ∧
        pa_Provider pa ≠ EmptyString ∧ pa_Path pa ≠ EmptyString ∧
        pa_SecretName pa ≠ EmptyString.
Proof.
  unfold ParseAnnotation. split.
  - intros [req H]. case_bool_decide; [done|]. split; [done|].
    destruct (yaml_Unmarshal yaml_parse text) as [|pa]; [done|].
    exists pa. repeat case_bool_decide; simplify_eq. done.
  - intros (Hne & pa & -> & Hp & Hpath & Hname).
    rewrite !bool_decide_eq_false_2 by done. eauto.
Qed.


End ParserMore.

Lemma ParseAnnotation_request_invariant_witness :
  ∃ req,
    annotation.ParseAnnotation testdata.yaml_parse testdata.doc_keys
      "default" "test-pod" "uid-123" = inr req ∧
    annotation.Provider req ≠ EmptyString ∧
    annotation.PodUID req = "uid-123".
Proof.
  eexists. split; [vm_compute; reflexivity|].
  edestruct (ParseAnnotation_request_invariant testdata.yaml_parse
               testdata.doc_keys "default" "test-pod" "uid-123")
    as (Hp & _ & _ & _ & Huid); [vm_compute; reflexivity|].
  split; [exact Hp|exact Huid].
Defined.

Lemma ParseAnnotation_succeeds_iff_witness :
  (∃ req, annotation.ParseAnnotation testdata.yaml_parse testdata.doc_plain
            "default" "test-pod" "uid-123" = inr req) ∧
  ¬ (∃ req, annotation.ParseAnnotation testdata.yaml_parse testdata.doc_no_path
              "default" "test-pod" "uid-123" = inr req).
Proof.
  split.
  - apply (ParseAnnotation_succeeds_iff testdata.yaml_parse testdata.doc_plain
             "default" "test-pod" "uid-123").
    split; [by vm_compute|]. eexists. split; [vm_compute; reflexivity|].
    by vm_compute.
  - intros H.
    apply (ParseAnnotation_succeeds_iff testdata.yaml_parse testdata.doc_no_path
             "default" "test-pod" "uid-123") in H
      as (_ & pa & Hpa & _ & Hpath & _).
    vm_compute in Hpa. injection Hpa as <-. by apply Hpath.
Defined.


(** ** The provider registry *)

Section RegistryFacts.

Import provider.

(** X4: a provider that was registered is found under its name, every
    other name answers as before, and registering a second provider
    under a name replaces the first. *)
Theorem Register_Get (r : ProviderRegistry) (p : SecretProvider) :
  Get (Register r p) (Name p) = Some p ∧
  (∀ name, name ≠ Name p → Get (Register r p) name = Get r name) ∧
  (∀ p', Name p' = Name p → Register (Register r p') p = Register r p).
Proof.
  unfold Get, Register. simpl. split; [apply lookup_insert_eq|]. split.
  - intros name Hne. by rewrite lookup_insert_ne.
  - intros p' ->. by rewrite insert_insert_eq.
Qed.

(** X5: [List] names exactly the providers [Get] finds, each once, and
    the new registry has none. *)
Theorem List_names_registered (r : ProviderRegistry) :
  (∀ name, name ∈ List r ↔ is_Some (Get r name)) ∧
  NoDup (List r) ∧
  length (List r) = size (providers r) ∧
  List NewProviderRegistry = [] ∧
  (∀ name, Get NewProviderRegistry name = None).
Proof.
  unfold List, Get. repeat split.
  - intros [[name' p] [-> Hin]]%list_elem_of_fmap.
    apply elem_of_map_to_list in Hin. by exists p.
  - intros [p Hp]. apply list_elem_of_fmap. exists (name, p).
    split; [done|]. by apply elem_of_map_to_list.
  - apply NoDup_fst_map_to_list.
  - by rewrite length_fmap, length_map_to_list.
Qed.

End RegistryFacts.

Lemma Register_Get_witness :
  let vault := {| provider.FetchSecret := fun _ => inr ∅; provider.Name := "vault" |} in
  let r := provider.Register testdata.registry vault in
  provider.Name <$> provider.Get r "vault" = Some "vault" ∧
  provider.Name <$> provider.Get r "aws-secretsmanager" = Some "aws-secretsmanager".
Proof.
  intros vault r.
  destruct (Register_Get testdata.registry vault) as (Hget & Hother & _).
  split.
  - exact (f_equal (fmap provider.Name) Hget).
  - unfold r. rewrite Hother; [reflexivity|discriminate].
Defined.

(** ** The AWS provider, its errors and its start-up *)

Section ProviderMore.

Import provider.

Variable json_Unmarshal : string → error + gmap string json_value.
Variable json_Marshal : json_value → string.
Variable Sprintf_v_float64 : float → string.

Abbreviation FetchSecret' :=
  (provider.AWS_FetchSecret json_Unmarshal json_Marshal Sprintf_v_float64).

(** X6: [FetchSecret] fails in three ways and no other: the call to
    Secrets Manager failed, the secret has no string value, or the
    string is not a JSON object; in the first and the last the error
    returned wraps the one received, whose cause it keeps. *)
Theorem AWS_FetchSecret_errors p path err :
  FetchSecret' p path = inl err →
  (∃ e, client p path = inl e ∧ Cause err = Cause e ∧
        Error err = "failed to fetch secret from AWS Secrets Manager: " +:+ Error e) ∨
  (client p path = inr None ∧
   err = errorString ("secret " +:+ path +:+ " does not contain a string value")) ∨
  (∃ SecretString e, client p path = inr (Some SecretString) ∧
        json_Unmarshal SecretString = inl e ∧ Cause err = Cause e ∧
        Error err = "failed to parse secret JSON: " +:+ Error e).
Proof.
  unfold provider.AWS_FetchSecret. intros H.
  destruct (client p path) as [e|[SecretString|]] eqn:Hclient.
  - left. exists e. by simplify_eq.
  - destruct (json_Unmarshal SecretString) as [e|rawData] eqn:Hjson; [|done].
    right; right. exists SecretString, e. by simplify_eq.
  - right; left. by simplify_eq.
Qed.

(** X7: a JSON object whose values are all strings is fetched key for
    key and value for value, with nothing converted. *)
Theorem convertValues_strings (m : gmap string string) :
  convertValues json_Marshal Sprintf_v_float64 (json_string <$> m) = m.
Proof.
  apply map_eq. intros key.
  rewrite convertValues_lookup, lookup_fmap.
  by destruct (m !! key).
Qed.

Variable Config : Type.
Variable NewFromConfig : Config → string → error + option string.

Abbreviation DefaultProviderRegistry' LoadDefaultConfig :=
  (provider.DefaultProviderRegistry json_Unmarshal json_Marshal
     Sprintf_v_float64 Config LoadDefaultConfig NewFromConfig).

(** X8: when the AWS configuration loads, the default registry holds
    the AWS provider under [aws-secretsmanager], with the client made
    from that configuration, and no other provider; when it does not
    load there is no registry, and the error keeps the cause. *)
Theorem DefaultProviderRegistry_contents (LoadDefaultConfig : error + Config) :
  match LoadDefaultConfig with
  | inr cfg =>
    ∃ registry, DefaultProviderRegistry' LoadDefaultConfig = inr registry ∧
      List registry = ["aws-secretsmanager"] ∧
      (∀ name, name ≠ "aws-secretsmanager" → Get registry name = None) ∧
      ∃ aws, Get registry "aws-secretsmanager" = Some aws ∧
             Name aws = "aws-secretsmanager" ∧
             FetchSecret aws = FetchSecret' {| client := NewFromConfig cfg |}
  | inl e =>
    ∃ err, DefaultProviderRegistry' LoadDefaultConfig = inl err ∧
           Cause err = Cause e ∧
           Error err = "failed to create AWS provider: failed to load AWS config: "
                       +:+ Error e
  end.
Proof.
  unfold provider.DefaultProviderRegistry, NewAWSSecretsManagerProvider.
  destruct LoadDefaultConfig as [e|cfg].
  - eexists. split; [done|]. split; [done|]. reflexivity.
  - eexists. split; [done|]. split; [|split].
    + unfold List, Register, NewProviderRegistry. simpl.
      by rewrite insert_empty, map_to_list_singleton.
    + intros name Hne. unfold Get, Register, NewProviderRegistry. simpl.
      rewrite lookup_insert_ne by done. apply lookup_empty.
    + eexists. split; [apply lookup_insert_eq|]. done.
Qed.

End ProviderMore.

Lemma AWS_FetchSecret_errors_witness :
  ∃ e, provider.client testdata.secretsmanager "/prod/myapp/absent" = inl e ∧
       Cause testdata.absent_secret_error = Cause e.
Proof.
  destruct (AWS_FetchSecret_errors testdata.json_Unmarshal testdata.json_Marshal
              testdata.Sprintf_v_float64 testdata.secretsmanager
              "/prod/myapp/absent" testdata.absent_secret_error)
    as [(e & He & Hcause & _)|[[Hnone _]|(s & e & Hsome & _)]];
    [reflexivity| |discriminate Hnone|discriminate Hsome].
  exists e. by split.
Defined.

Lemma DefaultProviderRegistry_contents_witness :
  (∃ registry,
     provider.DefaultProviderRegistry testdata.json_Unmarshal testdata.json_Marshal
       testdata.Sprintf_v_float64 unit (inr tt) testdata.NewFromConfig = inr registry ∧
     provider.List registry = ["aws-secretsmanager"]) ∧
  (∃ err,
     provider.DefaultProviderRegistry testdata.json_Unmarshal testdata.json_Marshal
       testdata.Sprintf_v_float64 unit (inl testdata.no_credentials)
       testdata.NewFromConfig = inl err ∧
     Cause err = testdata.no_credentials).
Proof.
  split.
  - destruct (DefaultProviderRegistry_contents testdata.json_Unmarshal
                testdata.json_Marshal testdata.Sprintf_v_float64 unit
                testdata.NewFromConfig (inr tt))
      as (registry & Hreg & Hlist & _).
    exists registry. by split.
  - destruct (DefaultProviderRegistry_contents testdata.json_Unmarshal
                testdata.json_Marshal testdata.Sprintf_v_float64 unit
                testdata.NewFromConfig (inl testdata.no_credentials))
      as (err & Herr & Hcause & _).
    exists err. by split.
Defined.

(** ** One run of the reconciler, for any store *)

Section RunFacts.

Import annotation provider events controller.

Variable yaml_parse : string → error + yaml.Node.
Context {W : Type}.
Variable c : Client W.
Variable registry : ProviderRegistry.
Variable now : string.

Abbreviation run req w := (Reconcile yaml_parse c registry now req w).

Local Ltac run_cases :=
  unfold Reconcile, reconcilePod, upsert, after in *;
  repeat (case_match; simplify_eq/=); try done.

(** X9: for a pod that is gone, or that has no sync annotation, the
    run does nothing: it is a success without requeue, and the read of
    the pod is its only call. *)
Theorem Reconcile_nothing_to_do req w :
  (∃ e, GetPod c req w = inl e ∧ IsNotFound (Some e) = true) ∨
  (∃ pod, GetPod c req w = inr pod ∧
          pod_Annotations pod !! AnnotationKey = None) →
  run req w = {| result := {| Requeue := false |}; err := None; world := w;
                 calls := [CallGetPod req] |}.
Proof.
  intros [(e & Hget & Hnf)|(pod & Hget & Hann)]; unfold Reconcile, reconcilePod.
  - rewrite Hget. unfold IgnoreNotFound. by rewrite Hnf.
  - by rewrite Hget, Hann.
Qed.

(** X10: an annotation that does not parse is reported on the pod once,
    as a warning [AnnotationInvalid] whose message ends in the parser's
    error, and the run is a success without requeue: nothing is fetched
    and nothing is read from or written to the secrets. *)
Theorem Reconcile_invalid_annotation req w pod annotationValue parseErr :
  GetPod c req w = inr pod →
  pod_Annotations pod !! AnnotationKey = Some annotationValue →
  ParseAnnotation yaml_parse annotationValue
    (pod_Namespace pod) (pod_Name pod) (pod_UID pod) = inl parseErr →
  run req w
  = {| result := {| Requeue := false |}; err := None; world := w;
       calls := [CallGetPod req;
                 CallEventf
                   {| object := ObjectKeyFromPod pod;
                      eventtype := "Warning";
                      reason := "AnnotationInvalid";
                      message := "Invalid secret sync annotation: "
                                 +:+ Error parseErr |}] |}.
Proof.
  intros Hget Hann Hparse. unfold Reconcile, reconcilePod.
  by rewrite Hget, Hann, Hparse.
Qed.

(** X11: a provider name that is not registered is reported on the pod
    once, as a warning [ProviderUnsupported] naming the provider; no
    provider is asked for the secret and the run is a success without
    requeue. *)
Theorem Reconcile_unknown_provider req w pod annotationValue syncRequest :
  GetPod c req w = inr pod →
  pod_Annotations pod !! AnnotationKey = Some annotationValue →
  ParseAnnotation yaml_parse annotationValue
    (pod_Namespace pod) (pod_Name pod) (pod_UID pod) = inr syncRequest →
  Get registry (Provider syncRequest) = None →
  run req w
  = {| result := {| Requeue := false |}; err := None; world := w;
       calls := [CallGetPod req;
                 CallEventf
                   {| object := ObjectKeyFromPod pod;
                      eventtype := "Warning";
                      reason := "ProviderUnsupported";
                      message := "Provider '" +:+ Provider syncRequest
                                 +:+ "' not found in registry" |}] |} ∧
  fetches (calls (run req w)) = [].
Proof.
  intros Hget Hann Hparse Hreg.
  assert (run req w = {| result := {| Requeue := false |}; err := None; world := w;
       calls := [CallGetPod req;
                 CallEventf (EmitProviderNotFound pod (Provider syncRequest))] |})
    as ->; [|done].
  unfold Reconcile, reconcilePod. rewrite Hget, Hann, Hparse.
  rewrite (ParseAnnotation_Namespace _ _ _ _ _ _ Hparse).
  rewrite bool_decide_eq_false_2 by (by intros []).
  by rewrite Hreg.
Qed.

(** X12: an error handed back to the runtime is always the error of a
    collaborator: of the read of the pod, of the fetch of a registered
    provider, of the read of the secret, or of its create or update.  No failure of
    the annotation or of the provider lookup is ever returned. *)
Theorem Reconcile_error_sources req w e :
  err (run req w) = Some e →
  GetPod c req w = inl e ∨
  (∃ name secretProvider path,
     Get registry name = Some secretProvider ∧
     FetchSecret secretProvider path = inl e) ∨
  (∃ key, GetSecret c key w = inl e) ∨
  (∃ secret, Create c secret w = inl e ∨ Update c secret w = inl e).
Proof.
  intros H. run_cases.
  all: try (unfold IgnoreNotFound in *; case_match; simplify_eq; by left).
  all: eauto 10.
Qed.

(** X13: a requeue is asked for only when the fetch of a registered
    provider failed, and then the fetch error is the error returned and
    the store is as it was. *)
Theorem Reconcile_requeue_only_on_fetch_failure req w :
  Requeue (result (run req w)) = true →
  ∃ name secretProvider path e,
    Get registry name = Some secretProvider ∧
    FetchSecret secretProvider path = inl e ∧
    err (run req w) = Some e ∧ world (run req w) = w.
Proof.
  intros H. run_cases. all: eauto 10.
Qed.

(** X14: one run fetches at most once, writes at most once and emits
    at most one notification. *)
Theorem Reconcile_at_most_once req w :
  (length (fetches (calls (run req w))) ≤ 1)%nat ∧
  (length (written (calls (run req w))) ≤ 1)%nat ∧
  (length (emitted (calls (run req w))) ≤ 1)%nat.
Proof.
  run_cases; simpl; lia.
Qed.

(** X15: [SecretSyncSuccess] is emitted exactly when the run made a
    write and returned no error. *)
Theorem Reconcile_success_event_iff_written req w :
  (∃ event, event ∈ emitted (calls (run req w)) ∧
            reason event = EventReasonSecretSyncSuccess) ↔
  err (run req w) = None ∧ written (calls (run req w)) ≠ [].
Proof.
  split.
  - intros (event & Hin & Hreason). revert Hin Hreason. run_cases.
    all: intros Hin Hreason; repeat (apply elem_of_cons in Hin as [-> | Hin]);
      try (by apply elem_of_nil in Hin); try discriminate Hreason.
  - intros [Herr Hwritten]. revert Herr Hwritten. run_cases.
    all: intros _ _; eexists; split; [by left|done].
Qed.

(** X16: whatever a run hands to [Create] or [Update] carries the
    managed-by label, the source path of the request and the time of
    the run in its annotations, the type [Opaque], and as its
    [StringData] the payload built from what the provider returned; an
    object handed to [Create] is named as the request says, in the
    pod's namespace, and has no other data. *)
Theorem Reconcile_written_object req w pod annotationValue syncRequest secret :
  GetPod c req w = inr pod →
  pod_Annotations pod !! AnnotationKey = Some annotationValue →
  ParseAnnotation yaml_parse annotationValue
    (pod_Namespace pod) (pod_Name pod) (pod_UID pod) = inr syncRequest →
  secret ∈ written (calls (run req w)) →
  Labels secret !! ManagedByLabel = Some ManagedByValue ∧
  Annotations secret !! SourcePathAnnotation = Some (SecretPath syncRequest) ∧
  Annotations secret !! SyncedAtAnnotation = Some now ∧
  secret_Type secret = SecretTypeOpaque ∧
  (∃ secretProvider secretData,
     Get registry (Provider syncRequest) = Some secretProvider ∧
     FetchSecret secretProvider (SecretPath syncRequest) = inr secretData ∧
     StringData secret = secretStringData (KeyMapping syncRequest) secretData) ∧
  (CallCreate secret ∈ calls (run req w) →
   ObjectKeyFromSecret secret = (pod_Namespace pod, SecretName syncRequest) ∧
   Data secret = ∅).
Proof.
  intros Hget Hann Hparse.
  destruct (Get registry (Provider syncRequest)) as [secretProvider|] eqn:Hreg.
  2: { unfold Reconcile, reconcilePod. rewrite Hget, Hann, Hparse.
       rewrite (ParseAnnotation_Namespace _ _ _ _ _ _ Hparse).
       rewrite bool_decide_eq_false_2 by (by intros []).
       rewrite Hreg. simpl. by intros ?%elem_of_nil. }
  erewrite Reconcile_until_fetch by done.
  pose proof (ParseAnnotation_Namespace _ _ _ _ _ _ Hparse) as Hns.
  destruct (FetchSecret secretProvider (SecretPath syncRequest))
    as [e|secretData] eqn:Hfetch; [by intros ?%elem_of_nil|].
  unfold upsert, after, ObjectKeyFromSecret.
  repeat (case_match; simplify_eq/=); try (by intros ?%elem_of_nil).
  all: intros ->%list_elem_of_singleton; simpl.
  all: rewrite ?lookup_insert_eq, ?(lookup_insert_ne _ SyncedAtAnnotation) by done.
  all: rewrite ?lookup_insert_eq.
  all: repeat (split; [by eauto|]).
  all: intros Hin; repeat (apply elem_of_cons in Hin as [? | Hin]); simplify_eq;
    try (by apply elem_of_nil in Hin).
  all: by rewrite ?Hns.
Qed.

(** X17: when the fetch succeeded, the only notification of the run is
    the success event, made of the pod, the secret name, the provider
    name and the source path: nothing of the fetched data is in it. *)
Theorem Reconcile_event_without_values
    req w pod annotationValue syncRequest secretProvider secretData :
  GetPod c req w = inr pod →
  pod_Annotations pod !! AnnotationKey = Some annotationValue →
  ParseAnnotation yaml_parse annotationValue
    (pod_Namespace pod) (pod_Name pod) (pod_UID pod) = inr syncRequest →
  Get registry (Provider syncRequest) = Some secretProvider →
  FetchSecret secretProvider (SecretPath syncRequest) = inr secretData →
  emitted (calls (run req w)) = [] ∨
  emitted (calls (run req w))
  = [ {| object := ObjectKeyFromPod pod;
         eventtype := "Normal";
         reason := "SecretSyncSuccess";
         message := "Successfully synchronized secret '" +:+ SecretName syncRequest
                    +:+ "' from " +:+ Provider syncRequest
                    +:+ " (path: " +:+ SecretPath syncRequest +:+ ")" |} ].
Proof.
  intros Hget Hann Hparse Hreg Hfetch.
  erewrite Reconcile_until_fetch by done. rewrite Hfetch.
  unfold upsert, after.
  repeat (case_match; simplify_eq/=); auto.
Qed.

End RunFacts.

Lemma Reconcile_nothing_to_do_witness :
  let w := testdata.cluster [testdata.pod_with "app" testdata.doc_plain] [] in
  controller.Reconcile testdata.yaml_parse controller.apiserver testdata.registry
    testdata.now ("default", "gone") w
  = {| controller.result := {| controller.Requeue := false |};
       controller.err := None; controller.world := w;
       controller.calls := [controller.CallGetPod ("default", "gone")] |}.
Proof.
  intros w. apply Reconcile_nothing_to_do.
  left. eexists. split; reflexivity.
Defined.

Lemma Reconcile_invalid_annotation_witness :
  let w := testdata.cluster [testdata.pod_with "app" testdata.doc_invalid] [] in
  emitted (controller.calls
             (controller.Reconcile testdata.yaml_parse controller.apiserver
                testdata.registry testdata.now ("default", "app") w))
  = [ {| events.object := ("default", "app");
         events.eventtype := "Warning";
         events.reason := "AnnotationInvalid";
         events.message :=
           "Invalid secret sync annotation: failed to parse annotation YAML: "
           +:+ "yaml: line 1: did not find expected ',' or '}'" |} ].
Proof.
  intros w.
  erewrite (Reconcile_invalid_annotation testdata.yaml_parse controller.apiserver
              testdata.registry testdata.now ("default", "app") w
              (testdata.pod_with "app" testdata.doc_invalid) testdata.doc_invalid)
    by reflexivity.
  reflexivity.
Defined.

Lemma Reconcile_unknown_provider_witness :
  let w := testdata.cluster [testdata.pod_with "app" testdata.doc_vault] [] in
  fetches (controller.calls
             (controller.Reconcile testdata.yaml_parse controller.apiserver
                testdata.registry testdata.now ("default", "app") w)) = [].
Proof.
  intros w.
  eapply (Reconcile_unknown_provider testdata.yaml_parse controller.apiserver
            testdata.registry testdata.now ("default", "app") w
            (testdata.pod_with "app" testdata.doc_vault) testdata.doc_vault);
    reflexivity.
Defined.

Lemma Reconcile_error_sources_witness :
  let w := testdata.cluster [testdata.pod_with "app" testdata.doc_missing] [] in
  let e := testdata.absent_secret_error in
  controller.GetPod controller.apiserver ("default", "app") w = inl e ∨
  (∃ name secretProvider path,
     provider.Get testdata.registry name = Some secretProvider ∧
     provider.FetchSecret secretProvider path = inl e) ∨
  (∃ key, controller.GetSecret controller.apiserver key w = inl e) ∨
  (∃ secret, controller.Create controller.apiserver secret w = inl e ∨
             controller.Update controller.apiserver secret w = inl e).
Proof.
  intros w e.
  apply (Reconcile_error_sources testdata.yaml_parse controller.apiserver
           testdata.registry testdata.now ("default", "app") w e).
  reflexivity.
Defined.

Lemma Reconcile_requeue_only_on_fetch_failure_witness :
  let w := testdata.cluster [testdata.pod_with "app" testdata.doc_missing] [] in
  let run := controller.Reconcile testdata.yaml_parse controller.apiserver
               testdata.registry testdata.now ("default", "app") w in
  ∃ name secretProvider path e,
    provider.Get testdata.registry name = Some secretProvider ∧
    provider.FetchSecret secretProvider path = inl e ∧
    controller.err run = Some e ∧ controller.world run = w.
Proof.
  intros w run.
  apply (Reconcile_requeue_only_on_fetch_failure testdata.yaml_parse
           controller.apiserver testdata.registry testdata.now
           ("default", "app") w).
  reflexivity.
Defined.

Lemma Reconcile_written_object_witness :
  let w := testdata.cluster [testdata.pod_with "app" testdata.doc_keys] [] in
  let run := controller.Reconcile testdata.yaml_parse controller.apiserver
               testdata.registry testdata.now ("default", "app") w in
  let secret :=
    {| secret_Namespace := "default"; secret_Name := "db-credentials";
       Labels := {[ controller.ManagedByLabel := controller.ManagedByValue ]};
       Annotations := <[controller.SyncedAtAnnotation := testdata.now]>
                        {[ controller.SourcePathAnnotation := "/prod/myapp/database" ]};
       Data := ∅;
       StringData := <["database" := "h"]> (<["password" := "p"]> ∅);
       secret_Type := "Opaque" |} in
  written (controller.calls run) = [secret] ∧
  Labels secret !! controller.ManagedByLabel = Some controller.ManagedByValue ∧
  Annotations secret !! controller.SourcePathAnnotation
  = Some "/prod/myapp/database" ∧
  secret_Type secret = controller.SecretTypeOpaque.
Proof.
  intros w run secret.
  assert (written (controller.calls run) = [secret]) as Hwritten
    by (vm_compute; reflexivity).
  split; [exact Hwritten|].
  edestruct (Reconcile_written_object testdata.yaml_parse controller.apiserver
               testdata.registry testdata.now ("default", "app") w
               (testdata.pod_with "app" testdata.doc_keys) testdata.doc_keys
               {| annotation.Provider := "aws-secretsmanager";
                  annotation.SecretPath := "/prod/myapp/database";
                  annotation.SecretName := "db-credentials";
                  annotation.Namespace := "default";
                  annotation.PodName := "app";
                  annotation.PodUID := "uid-app";
                  annotation.KeyMapping :=
                    <["database" := "DB_HOST"]> (<["password" := "DB_PASSWORD"]> ∅) |}
               secret)
    as (Hlabel & Hpath & _ & Htype & _);
    [reflexivity | reflexivity | reflexivity | |].
  - fold run. rewrite Hwritten. by left.
  - split; [exact Hlabel|]. split; [exact Hpath|exact Htype].
Defined.

Lemma Reconcile_event_without_values_witness :
  let w := testdata.cluster [testdata.pod_with "app" testdata.doc_plain] [] in
  let run := controller.Reconcile testdata.yaml_parse controller.apiserver
               testdata.registry testdata.now ("default", "app") w in
  emitted (controller.calls run) = [] ∨
  emitted (controller.calls run)
  = [ {| events.object := ("default", "app");
         events.eventtype := "Normal";
         events.reason := "SecretSyncSuccess";
         events.message :=
           "Successfully synchronized secret 'db-credentials' from "
           +:+ "aws-secretsmanager (path: /prod/myapp/database)" |} ].
Proof.
  intros w run.
  apply (Reconcile_event_without_values testdata.yaml_parse controller.apiserver
           testdata.registry testdata.now ("default", "app") w
           (testdata.pod_with "app" testdata.doc_plain) testdata.doc_plain
           {| annotation.Provider := "aws-secretsmanager";
              annotation.SecretPath := "/prod/myapp/database";
              annotation.SecretName := "db-credentials";
              annotation.Namespace := "default";
              annotation.PodName := "app";
              annotation.PodUID := "uid-app";
              annotation.KeyMapping := ∅ |}
           testdata.aws testdata.database);
    reflexivity.
Defined.

(** ** Runs against the resource store *)

Section StoreFacts.

Import annotation provider events controller.

Variable yaml_parse : string → error + yaml.Node.
Variable registry : ProviderRegistry.

(** The pod the store answers with is one of its pods, under the key
    asked for. *)
Lemma GetPod_apiserver req (w : Cluster) pod :
  GetPod apiserver req w = inr pod → pod ∈ pods w ∧ ObjectKeyFromPod pod = req.
Proof.
  simpl. destruct (find _ (pods w)) as [pod'|] eqn:Hfind; [|done].
  intros [= ->]. apply find_some in Hfind as [Hin Hkey].
  split; [by apply list_elem_of_In|by apply bool_decide_eq_true in Hkey].
Qed.

(** The upsert against a keyed store always goes through: it leaves one
    secret under the request's key, built from the secret that was
    there, if any, and changes nothing else. *)
Lemma upsert_apiserver now pod syncRequest secretData (w : Cluster) :
  store_keyed w →
  ∃ secret,
    world (upsert apiserver now pod syncRequest secretData w)
    = {| pods := pods w;
         secrets := <[(Namespace syncRequest, SecretName syncRequest) := secret]>
                      (secrets w) |} ∧
    err (upsert apiserver now pod syncRequest secretData w) = None ∧
    result (upsert apiserver now pod syncRequest secretData w)
    = {| Requeue := false |} ∧
    ObjectKeyFromSecret secret = (Namespace syncRequest, SecretName syncRequest) ∧
    Labels secret
    = <[ManagedByLabel := ManagedByValue]>
        (from_option Labels ∅
           (secrets w !! (Namespace syncRequest, SecretName syncRequest))) ∧
    Annotations secret
    = <[SyncedAtAnnotation := now]>
        (<[SourcePathAnnotation := SecretPath syncRequest]>
           (from_option Annotations ∅
              (secrets w !! (Namespace syncRequest, SecretName syncRequest)))) ∧
    Data secret
    = secretStringData (KeyMapping syncRequest) secretData
      ∪ from_option Data ∅
          (secrets w !! (Namespace syncRequest, SecretName syncRequest)) ∧
    StringData secret = ∅ ∧
    secret_Type secret = SecretTypeOpaque.
Proof.
  intros Hkeyed.
  destruct (secrets w !! (Namespace syncRequest, SecretName syncRequest))
    as [old|] eqn:Hold.
  - pose proof (Hkeyed _ _ Hold) as Hkey. injection Hkey as Hns Hname.
    unfold upsert, ObjectKeyFromSecret.
    cbn [secret_Namespace secret_Name GetSecret apiserver].
    rewrite Hold.
    cbn [IsNotFound negb andb].
    rewrite bool_decide_eq_false_2 by (by intros []).
    cbn [andb Update apiserver].
    unfold ObjectKeyFromSecret. cbn [secret_Namespace secret_Name].
    rewrite Hns, Hname, Hold.
    eexists. split; [reflexivity|]. simpl. by rewrite ?Hns, ?Hname.
  - unfold upsert, ObjectKeyFromSecret.
    cbn [secret_Namespace secret_Name GetSecret apiserver].
    rewrite Hold.
    cbn [IsNotFound NewNotFound Cause negb andb orb].
    rewrite (bool_decide_eq_true_2 (StatusReasonNotFound = StatusReasonNotFound))
      by done.
    rewrite andb_false_r.
    cbn [orb negb Create apiserver].
    unfold ObjectKeyFromSecret. cbn [secret_Namespace secret_Name].
    rewrite Hold.
    eexists. split; [reflexivity|]. simpl. by rewrite (right_id_L ∅ (∪)).
Qed.

(** A run in which everything up to the fetch goes through is the
    upsert, after the two calls before it. *)
Lemma Reconcile_reaches_upsert {W} (c : Client W) now req w
    pod annotationValue syncRequest secretProvider secretData :
  GetPod c req w = inr pod →
  pod_Annotations pod !! AnnotationKey = Some annotationValue →
  ParseAnnotation yaml_parse annotationValue
    (pod_Namespace pod) (pod_Name pod) (pod_UID pod) = inr syncRequest →
  Get registry (Provider syncRequest) = Some secretProvider →
  FetchSecret secretProvider (SecretPath syncRequest) = inr secretData →
  Reconcile yaml_parse c registry now req w
  = after [CallGetPod req;
           CallFetchSecret (Provider syncRequest) (SecretPath syncRequest)]
          (upsert c now pod syncRequest secretData w).
Proof.
  intros Hget Hann Hparse Hreg Hfetch.
  erewrite Reconcile_until_fetch by done. by rewrite Hfetch.
Qed.

(** What a run leaves of the store: the store as it was, or the store
    with one secret put under a key of the run's namespace. *)
Lemma Reconcile_apiserver_world now req (w : Cluster) :
  store_keyed w →
  world (Reconcile yaml_parse apiserver registry now req w) = w ∨
  ∃ name secret,
    world (Reconcile yaml_parse apiserver registry now req w)
    = {| pods := pods w; secrets := <[(req.1, name) := secret]> (secrets w) |} ∧
    ObjectKeyFromSecret secret = (req.1, name).
Proof.
  intros Hkeyed.
  destruct (GetPod apiserver req w) as [e|pod] eqn:Hget.
  { left. unfold Reconcile. by rewrite Hget. }
  destruct (pod_Annotations pod !! AnnotationKey) as [text|] eqn:Hann.
  2: { left. unfold Reconcile, reconcilePod. by rewrite Hget, Hann. }
  destruct (ParseAnnotation yaml_parse text (pod_Namespace pod) (pod_Name pod)
              (pod_UID pod)) as [e|syncRequest] eqn:Hparse.
  { left. unfold Reconcile, reconcilePod. by rewrite Hget, Hann, Hparse. }
  pose proof (ParseAnnotation_Namespace _ _ _ _ _ _ Hparse) as Hns.
  destruct (Get registry (Provider syncRequest)) as [secretProvider|] eqn:Hreg.
  2: { left. unfold Reconcile, reconcilePod. rewrite Hget, Hann, Hparse, Hns.
       rewrite bool_decide_eq_false_2 by (by intros []). by rewrite Hreg. }
  destruct (FetchSecret secretProvider (SecretPath syncRequest))
    as [e|secretData] eqn:Hfetch.
  { left. erewrite Reconcile_until_fetch by done. by rewrite Hfetch. }
  right. erewrite Reconcile_reaches_upsert by done.
  destruct (upsert_apiserver now pod syncRequest secretData w Hkeyed)
    as (secret & Hworld & _ & _ & Hkey & _).
  apply GetPod_apiserver in Hget as [_ <-].
  exists (SecretName syncRequest), secret.
  unfold after. simpl. rewrite Hworld. by rewrite <-Hns.
Qed.

(** The store of a run is keyed when the store it started from is. *)
Lemma store_keyed_insert (w : Cluster) key secret :
  store_keyed w → ObjectKeyFromSecret secret = key →
  store_keyed {| pods := pods w; secrets := <[key := secret]> (secrets w) |}.
Proof.
  intros Hkeyed Hkey key' secret'. simpl.
  destruct (decide (key = key')) as [<-|Hne].
  - rewrite lookup_insert_eq. by intros [= <-].
  - rewrite lookup_insert_ne by done. apply Hkeyed.
Qed.

Section HappyPath.

(** A pod whose annotation parses, names a registered provider, and
    whose secret the provider returns. *)
Variables (req : NamespacedName) (w : Cluster) (pod : Pod).
Variables (annotationValue : string) (syncRequest : SecretSyncRequest).
Variables (secretProvider : SecretProvider) (secretData : gmap string string).
Hypothesis Hkeyed : store_keyed w.
Hypothesis Hget : GetPod apiserver req w = inr pod.
Hypothesis Hann : pod_Annotations pod !! AnnotationKey = Some annotationValue.
Hypothesis Hparse :
  ParseAnnotation yaml_parse annotationValue
    (pod_Namespace pod) (pod_Name pod) (pod_UID pod) = inr syncRequest.
Hypothesis Hreg : Get registry (Provider syncRequest) = Some secretProvider.
Hypothesis Hfetch :
  FetchSecret secretProvider (SecretPath syncRequest) = inr secretData.

Abbreviation merged := (secretStringData (KeyMapping syncRequest) secretData).
Abbreviation target := (pod_Namespace pod, SecretName syncRequest).






End HappyPath.

(** X22: a run writes in the namespace of the pod it was asked for and
    nowhere else: the pods of the store, and every secret of another
    namespace, are as they were. *)
Theorem Reconcile_stays_in_namespace now req (w : Cluster) :
  store_keyed w →
  pods (world (Reconcile yaml_parse apiserver registry now req w)) = pods w ∧
  ∀ key, key.1 ≠ req.1 →
    secrets (world (Reconcile yaml_parse apiserver registry now req w)) !! key
    = secrets w !! key.
Proof.
  intros Hkeyed.
  destruct (Reconcile_apiserver_world now req w Hkeyed)
    as [->|(name & secret & -> & _)]; [done|].
  simpl. split; [done|]. intros key Hne.
  apply lookup_insert_ne. intros <-. by apply Hne.
Qed.

(** X23: a run deletes no secret, and it leaves the store keyed: every
    secret under its own namespace and name. *)
Theorem Reconcile_never_deletes now req (w : Cluster) :
  store_keyed w →
  store_keyed (world (Reconcile yaml_parse apiserver registry now req w)) ∧
  dom (secrets w)
  ⊆ dom (secrets (world (Reconcile yaml_parse apiserver registry now req w))).
Proof.
  intros Hkeyed.
  destruct (Reconcile_apiserver_world now req w Hkeyed)
    as [->|(name & secret & -> & Hkey)]; [done|].
  split; [by apply store_keyed_insert|].
  simpl. rewrite dom_insert_L. set_solver.
Qed.

End StoreFacts.

(** A store built from a list of secrets is keyed. *)
Lemma cluster_keyed pods secrets : store_keyed (testdata.cluster pods secrets).
Proof.
  intros key secret Hlookup. simpl in Hlookup.
  apply elem_of_list_to_map_2, list_elem_of_fmap in Hlookup
    as (secret' & [= -> ->] & _).
  done.
Qed.





Lemma Reconcile_stays_in_namespace_witness :
  let run := controller.Reconcile testdata.yaml_parse controller.apiserver
               testdata.registry testdata.now ("default", "app")
               testdata.store_stale in
  controller.secrets (controller.world run) !! ("staging", "db-credentials")
  = controller.secrets testdata.store_stale !! ("staging", "db-credentials").
Proof.
  intros run.
  apply (Reconcile_stays_in_namespace testdata.yaml_parse testdata.registry
           testdata.now ("default", "app") testdata.store_stale
           (cluster_keyed _ _)).
  discriminate.
Defined.

Lemma Reconcile_never_deletes_witness :
  dom (controller.secrets testdata.store_stale)
  ⊆ dom (controller.secrets
           (controller.world
              (controller.Reconcile testdata.yaml_parse controller.apiserver
                 testdata.registry testdata.now ("default", "app")
                 testdata.store_stale))).
Proof.
  apply (Reconcile_never_deletes testdata.yaml_parse testdata.registry
           testdata.now ("default", "app") testdata.store_stale
           (cluster_keyed _ _)).
Defined.

(** ** The reverse lookup, for any store *)

Section ReverseLookupMore.

Import annotation provider events controller.

Variable yaml_parse : string → error + yaml.Node.
Context {W : Type}.
Variable c : Client W.

(** The loop only ever appends to the requests it has. *)
Lemma foldl_appendIfReferenced_app secret Items requests :
  foldl (appendIfReferenced yaml_parse secret) requests Items
  = (requests ++ foldl (appendIfReferenced yaml_parse secret) [] Items)%list.
Proof.
  revert requests. induction Items as [|pod Items IH]; intros requests; simpl.
  - by rewrite app_nil_r.
  - rewrite IH, (IH (appendIfReferenced _ _ [] _)).
    unfold appendIfReferenced. repeat case_match; simpl;
      by rewrite ?app_nil_r, <-?(assoc_L (++)).
Qed.

(** X24: the reverse lookup enqueues the listed pods in the order of
    the listing, each at most once per place in it: its answer is a
    sublist of the keys of the pods listed. *)
Theorem findPodsForSecret_sublist secret w Items :
  ListPods c (secret_Namespace secret) w = inr Items →
  findPodsForSecret yaml_parse c secret w `sublist_of` (ObjectKeyFromPod <$> Items).
Proof.
  intros Hlist. unfold findPodsForSecret. rewrite Hlist.
  case_bool_decide; [apply sublist_nil_l|]. clear Hlist.
  induction Items as [|pod Items IH]; simpl; [done|].
  rewrite foldl_appendIfReferenced_app.
  unfold appendIfReferenced at 1. repeat case_match; simpl;
    (by apply sublist_skip) || (by apply sublist_cons).
Qed.

End ReverseLookupMore.

Lemma findPodsForSecret_sublist_witness :
  let w := testdata.cluster [testdata.pod_with "broken" testdata.doc_invalid;
                             testdata.pod_with "app" testdata.doc_plain] [] in
  controller.findPodsForSecret testdata.yaml_parse controller.apiserver
    testdata.stale_secret w `sublist_of` [("default", "broken"); ("default", "app")].
Proof.
  intros w.
  apply (findPodsForSecret_sublist testdata.yaml_parse controller.apiserver
           testdata.stale_secret w
           [testdata.pod_with "broken" testdata.doc_invalid;
            testdata.pod_with "app" testdata.doc_plain]).
  reflexivity.
Defined.
